(** * MCP proxy core: cache, circuit breaker, retry policy and dispatch

    A shallow embedding of the dispatch pipeline of the MCP proxy server
    (the modules cache, circuit-breaker, errors and proxy) together with
    the properties of its natural-language specification.  The libraries
    the code calls (node-cache, p-queue, axios-retry, Node's crypto and
    JSON) are modelled as far as the code uses them.

    JavaScript values are a small inductive type; numbers are restricted
    to the integers (what integer JSON literals and [Date.now()] yield).
    An object is the list of its own properties in enumeration order,
    which is the order [JSON.stringify] prints them in.  Functions that
    can throw return a [completion]; functions that mutate [this] take
    the receiver and return its new value. *)

From Stdlib Require Import ZArith String Ascii List Lia DecimalString.
From stdpp Require Import base gmap strings list.

Open Scope Z_scope.

(** ** JavaScript values *)

#[local] Set Warnings "-register-all".

Inductive value : Type :=
  | VUndefined
  | VNull
  | VBool (b : bool)
  | VNum (n : Z)
  | VStr (s : string)
  | VArr (items : list value)
  | VObj (fields : list (string * value)).

(** An exception object, as far as the code inspects one: [name],
    [message], [code] and the [response] axios attaches to an HTTP error
    (status and body). *)
Record js_error : Type := mk_error {
  err_name : string;
  err_message : string;
  err_code : option string;
  err_response : option (Z * value)
}.

Inductive completion (A : Type) : Type :=
  | Return (a : A)
  | Throw (e : js_error).

Arguments Return {A} a.
Arguments Throw {A} e.

#[export] Instance completion_ret : MRet completion := fun A a => Return a.

#[export] Instance completion_bind : MBind completion := fun A B k c =>
  match c with
  | Return a => k a
  | Throw e => Throw e
  end.

Definition TypeError (msg : string) : js_error :=
  mk_error "TypeError" msg None None.

Definition PlainError (msg : string) : js_error :=
  mk_error "Error" msg None None.

Module JS.

(** ToBoolean. *)
Definition truthy (v : value) : bool :=
  match v with
  | VUndefined | VNull => false
  | VBool b => b
  | VNum n => negb (n =? 0)
  | VStr s => negb (String.eqb s EmptyString)
  | VArr _ | VObj _ => true
  end.

Fixpoint assoc (k : string) (fs : list (string * value)) : option value :=
  match fs with
  | [] => None
  | (k', v) :: rest => if String.eqb k k' then Some v else assoc k rest
  end.

(** [v.k] for a property name [k] that no prototype defines (the code
    reads [jsonrpc], [method], [id], [params] and [error] only): a
    TypeError on [null] and [undefined], the own property of an object,
    [undefined] everywhere else. *)
Definition get (v : value) (k : string) : completion value :=
  match v with
  | VUndefined =>
      Throw (TypeError ("Cannot read properties of undefined (reading '" +:+ k +:+ "')"))
  | VNull =>
      Throw (TypeError ("Cannot read properties of null (reading '" +:+ k +:+ "')"))
  | VObj fs => Return (default VUndefined (assoc k fs))
  | _ => Return VUndefined
  end.

(** [typeof v === 'string'] *)
Definition is_string (v : value) : bool :=
  match v with VStr _ => true | _ => false end.

(** [typeof v === 'object'], which holds of [null] and of arrays too. *)
Definition typeof_object (v : value) : bool :=
  match v with VNull | VArr _ | VObj _ => true | _ => false end.

(** [v === 'lit'] *)
Definition strict_eq_str (v : value) (lit : string) : bool :=
  match v with VStr s => String.eqb s lit | _ => false end.

Definition is_undefined (v : value) : bool :=
  match v with VUndefined => true | _ => false end.

Definition is_null (v : value) : bool :=
  match v with VNull => true | _ => false end.

Definition Z_to_string (n : Z) : string :=
  NilEmpty.string_of_int (Z.to_int n).

Fixpoint join (sep : string) (l : list string) : string :=
  match l with
  | [] => EmptyString
  | [s] => s
  | s :: rest => s +:+ sep +:+ join sep rest
  end.

(** ToString, as a template literal or a computed property key applies
    it. *)
Fixpoint to_String (v : value) : string :=
  match v with
  | VUndefined => "undefined"
  | VNull => "null"
  | VBool b => if b then "true" else "false"
  | VNum n => Z_to_string n
  | VStr s => s
  | VArr items =>
      join "," ((fix elems (l : list value) : list string :=
                   match l with
                   | [] => []
                   | VUndefined :: rest | VNull :: rest =>
                       EmptyString :: elems rest
                   | x :: rest => to_String x :: elems rest
                   end) items)
  | VObj _ => "[object Object]"
  end.

Definition hex_digit (n : N) : ascii :=
  match n with
  | 0 => "0" | 1 => "1" | 2 => "2" | 3 => "3" | 4 => "4" | 5 => "5"
  | 6 => "6" | 7 => "7" | 8 => "8" | 9 => "9" | 10 => "a" | 11 => "b"
  | 12 => "c" | 13 => "d" | 14 => "e" | _ => "f"
  end%N%char.

Definition hex_byte (n : N) : string :=
  String (hex_digit (n / 16)) (String (hex_digit (n mod 16)) EmptyString).

Definition dquote : string := String (ascii_of_N 34) EmptyString.

(** QuoteJSONString on the bytes of a UTF-8 string. *)
Fixpoint quote_body (s : string) : string :=
  match s with
  | EmptyString => EmptyString
  | String c rest =>
      let n := N_of_ascii c in
      (if (n =? 34)%N then "\" +:+ dquote
       else if (n =? 92)%N then "\\"
       else if (n =? 8)%N then "\b"
       else if (n =? 12)%N then "\f"
       else if (n =? 10)%N then "\n"
       else if (n =? 13)%N then "\r"
       else if (n =? 9)%N then "\t"
       else if (n <? 32)%N then "\u00" +:+ hex_byte n
       else String c EmptyString) +:+ quote_body rest
  end.

Definition quote (s : string) : string := dquote +:+ quote_body s +:+ dquote.

(** [JSON.stringify(v)] without replacer or indentation; [None] stands
    for the result [undefined].  A property whose value is [undefined]
    is left out of an object and printed as [null] in an array. *)
Fixpoint JSON_stringify (v : value) : option string :=
  match v with
  | VUndefined => None
  | VNull => Some "null"
  | VBool b => Some (if b then "true" else "false")
  | VNum n => Some (Z_to_string n)
  | VStr s => Some (quote s)
  | VArr items =>
      Some ("[" +:+
            join "," ((fix elems (l : list value) : list string :=
                         match l with
                         | [] => []
                         | x :: rest =>
                             default "null" (JSON_stringify x) :: elems rest
                         end) items) +:+ "]")
  | VObj fields =>
      Some ("{" +:+
            join "," ((fix members (l : list (string * value)) : list string :=
                         match l with
                         | [] => []
                         | (k, x) :: rest =>
                             match JSON_stringify x with
                             | Some s => (quote k +:+ ":" +:+ s) :: members rest
                             | None => members rest
                             end
                         end) fields) +:+ "}")
  end.

End JS.


(** ** MD5

    [crypto.createHash('md5').update(s).digest('hex')] of Node, on the
    UTF-8 bytes of [s] (RFC 1321).  Words are 32-bit unsigned integers
    held in [Z]; every addition wraps modulo 2^32. *)

Module MD5.

Definition mask32 : Z := 4294967295.

Definition add32 (a b : Z) : Z := Z.land (a + b) mask32.

Definition not32 (a : Z) : Z := Z.lxor a mask32.

Definition rotl32 (x c : Z) : Z :=
  Z.land (Z.lor (Z.shiftl x c) (Z.shiftr x (32 - c))) mask32.

Definition shifts : list Z :=
  [7; 12; 17; 22; 7; 12; 17; 22; 7; 12; 17; 22; 7; 12; 17; 22;
   5; 9; 14; 20; 5; 9; 14; 20; 5; 9; 14; 20; 5; 9; 14; 20;
   4; 11; 16; 23; 4; 11; 16; 23; 4; 11; 16; 23; 4; 11; 16; 23;
   6; 10; 15; 21; 6; 10; 15; 21; 6; 10; 15; 21; 6; 10; 15; 21].

(** [floor (2^32 * |sin (i + 1)|)] for [i] from 0 to 63. *)
Definition sines : list Z :=
  [3614090360; 3905402710; 606105819; 3250441966;
   4118548399; 1200080426; 2821735955; 4249261313;
   1770035416; 2336552879; 4294925233; 2304563134;
   1804603682; 4254626195; 2792965006; 1236535329;
   4129170786; 3225465664; 643717713; 3921069994;
   3593408605; 38016083; 3634488961; 3889429448;
   568446438; 3275163606; 4107603335; 1163531501;
   2850285829; 4243563512; 1735328473; 2368359562;
   4294588738; 2272392833; 1839030562; 4259657740;
   2763975236; 1272893353; 4139469664; 3200236656;
   681279174; 3936430074; 3572445317; 76029189;
   3654602809; 3873151461; 530742520; 3299628645;
   4096336452; 1126891415; 2878612391; 4237533241;
   1700485571; 2399980690; 4293915773; 2240044497;
   1873313359; 4264355552; 2734768916; 1309151649;
   4149444226; 3174756917; 718787259; 3951481745].

Definition bytes_of_string (s : string) : list Z :=
  map (fun c => Z.of_N (N_of_ascii c)) (list_ascii_of_string s).

Fixpoint le_bytes (n : nat) (x : Z) : list Z :=
  match n with
  | O => []
  | S n' => Z.land x 255 :: le_bytes n' (Z.shiftr x 8)
  end.

Definition pad (msg : list Z) : list Z :=
  let len := Z.of_nat (length msg) in
  msg ++ [128] ++ repeat 0 (Z.to_nat ((55 - len) mod 64))
      ++ le_bytes 8 (8 * len).

Fixpoint words (bs : list Z) : list Z :=
  match bs with
  | b0 :: b1 :: b2 :: b3 :: rest =>
      (b0 + 256 * b1 + 65536 * b2 + 16777216 * b3) :: words rest
  | _ => []
  end.

Record digest_state : Type := mk_state { sa : Z; sb : Z; sc : Z; sd : Z }.

Definition init : digest_state :=
  mk_state 1732584193 4023233417 2562383102 271733878.

Definition round (M : list Z) (st : digest_state) (i : nat) : digest_state :=
  let '(mk_state a b c d) := st in
  let '(f, g) :=
    if (i <? 16)%nat then
      (Z.lor (Z.land b c) (Z.land (not32 b) d), i)
    else if (i <? 32)%nat then
      (Z.lor (Z.land d b) (Z.land (not32 d) c), ((5 * i + 1) mod 16)%nat)
    else if (i <? 48)%nat then
      (Z.lxor b (Z.lxor c d), ((3 * i + 5) mod 16)%nat)
    else
      (Z.lxor c (Z.lor b (not32 d)), ((7 * i) mod 16)%nat) in
  let f' := add32 (add32 (add32 f a) (nth i sines 0)) (nth g M 0) in
  mk_state d (add32 b (rotl32 f' (nth i shifts 0))) b c.

Definition block (st : digest_state) (M : list Z) : digest_state :=
  let r := fold_left (round M) (seq 0 64) st in
  mk_state (add32 (sa st) (sa r)) (add32 (sb st) (sb r))
           (add32 (sc st) (sc r)) (add32 (sd st) (sd r)).

Fixpoint blocks (n : nat) (ws : list Z) (st : digest_state) : digest_state :=
  match n with
  | O => st
  | S n' => blocks n' (skipn 16 ws) (block st (firstn 16 ws))
  end.

Definition digest (msg : list Z) : list Z :=
  let ws := words (pad msg) in
  let r := blocks (length ws / 16) ws init in
  le_bytes 4 (sa r) ++ le_bytes 4 (sb r) ++ le_bytes 4 (sc r)
    ++ le_bytes 4 (sd r).

Definition hex (bs : list Z) : string :=
  fold_right (fun b acc => JS.hex_byte (Z.to_N b) +:+ acc) EmptyString bs.

Definition md5_hex (s : string) : string := hex (digest (bytes_of_string s)).

End MD5.

(** ** errors.js *)

Module ErrorCodes.
Definition INVALID_REQUEST : Z := -32600.
Definition METHOD_NOT_FOUND : Z := -32601.
Definition INVALID_PARAMS : Z := -32602.
Definition INTERNAL_ERROR : Z := -32603.
Definition SERVER_UNAVAILABLE : Z := -32001.
Definition REQUEST_TIMEOUT : Z := -32002.
Definition CIRCUIT_BREAKER_OPEN : Z := -32003.
Definition PROXY_ERROR : Z := -32004.
End ErrorCodes.

(** A default parameter [x = null] takes its default when the argument
    is missing or [undefined]. *)
Definition default_null (v : value) : value :=
  if JS.is_undefined v then VNull else v.

Definition createErrorResponse (code : Z) (message : string) (data id : value)
  : value :=
  let data := default_null data in
  let id := default_null id in
  let error :=
    [("code", VNum code); ("message", VStr message)]
      ++ (if negb (JS.is_null data) then [("data", data)] else []) in
  VObj ([("jsonrpc", VStr "2.0"); ("error", VObj error)]
          ++ (if negb (JS.is_null id) then [("id", id)] else [])).

(** [error.code === 'A' || error.code === 'B'] *)
Definition code_is (e : js_error) (a b : string) : bool :=
  match err_code e with
  | Some c => String.eqb c a || String.eqb c b
  | None => false
  end.

Definition handleProxyError (error : js_error) (serverId : string) : value :=
  if code_is error "ECONNREFUSED" "ENOTFOUND" then
    createErrorResponse ErrorCodes.SERVER_UNAVAILABLE
      ("无法连接到 Dify 服务 (" +:+ serverId +:+ ")")
      (VObj [("retry_after", VNum 30); ("server_id", VStr serverId)])
      VUndefined
  else if code_is error "ETIMEDOUT" "ECONNABORTED" then
    createErrorResponse ErrorCodes.REQUEST_TIMEOUT
      "请求超时，请稍后重试"
      (VObj [("timeout", VBool true); ("server_id", VStr serverId)])
      VUndefined
  else
    match err_response error with
    | Some (status, body) =>
        createErrorResponse ErrorCodes.PROXY_ERROR
          ("Dify 服务器错误: " +:+ JS.Z_to_string status)
          (VObj [("status_code", VNum status); ("server_id", VStr serverId);
                 ("response_data", body)])
          VUndefined
    | None =>
        createErrorResponse ErrorCodes.INTERNAL_ERROR
          "内部服务器错误"
          (VObj [("server_id", VStr serverId)])
          VUndefined
    end.

(** Readers of a response envelope. *)
Definition own (v : value) (k : string) : option value :=
  match v with
  | VObj fs => JS.assoc k fs
  | _ => None
  end.

Definition error_code (resp : value) : option Z :=
  match own resp "error" with
  | Some e => match own e "code" with Some (VNum c) => Some c | _ => None end
  | None => None
  end.

(** ** circuit-breaker.js *)

Inductive breaker_state : Type := CLOSED | OPEN | HALF_OPEN.

Record breaker_stats : Type := mk_breaker_stats {
  totalRequests : Z;
  totalFailures : Z;
  totalSuccesses : Z;
  circuitBreakerTrips : Z
}.

Record breaker_options : Type := mk_breaker_options {
  opt_failureThreshold : option Z;
  opt_recoveryTimeout : option Z;
  opt_monitoringPeriod : option Z
}.

Record CircuitBreaker : Type := mk_breaker {
  serverId : string;
  failureThreshold : Z;
  recoveryTimeout : Z;
  monitoringPeriod : Z;
  state : breaker_state;
  failureCount : Z;
  successCount : Z;
  nextAttempt : Z;
  lastFailureTime : option Z;
  stats : breaker_stats
}.

(** The admission decision of [execute]: either the protected function
    is called, or [execute] throws before calling it. *)
Inductive admission : Type :=
  | Invoke
  | Refuse (e : js_error).

Module Breaker.

(** [options.k || d] on an optional number. *)
Definition or_default (o : option Z) (d : Z) : Z :=
  match o with
  | Some n => if n =? 0 then d else n
  | None => d
  end.

(** [new CircuitBreaker(serverId, options)] at time [now]. *)
Definition create (now : Z) (id : string) (options : breaker_options)
  : CircuitBreaker :=
  mk_breaker id
    (or_default (opt_failureThreshold options) 5)
    (or_default (opt_recoveryTimeout options) 30000)
    (or_default (opt_monitoringPeriod options) 60000)
    CLOSED 0 0 now None (mk_breaker_stats 0 0 0 0).

Definition with_stats (f : breaker_stats -> breaker_stats) (b : CircuitBreaker)
  : CircuitBreaker :=
  mk_breaker (serverId b) (failureThreshold b) (recoveryTimeout b)
    (monitoringPeriod b) (state b) (failureCount b) (successCount b)
    (nextAttempt b) (lastFailureTime b) (f (stats b)).

Definition with_state (s : breaker_state) (b : CircuitBreaker) : CircuitBreaker :=
  mk_breaker (serverId b) (failureThreshold b) (recoveryTimeout b)
    (monitoringPeriod b) s (failureCount b) (successCount b)
    (nextAttempt b) (lastFailureTime b) (stats b).

Definition with_failureCount (n : Z) (b : CircuitBreaker) : CircuitBreaker :=
  mk_breaker (serverId b) (failureThreshold b) (recoveryTimeout b)
    (monitoringPeriod b) (state b) n (successCount b)
    (nextAttempt b) (lastFailureTime b) (stats b).

Definition with_successCount (n : Z) (b : CircuitBreaker) : CircuitBreaker :=
  mk_breaker (serverId b) (failureThreshold b) (recoveryTimeout b)
    (monitoringPeriod b) (state b) (failureCount b) n
    (nextAttempt b) (lastFailureTime b) (stats b).

Definition with_nextAttempt (t : Z) (b : CircuitBreaker) : CircuitBreaker :=
  mk_breaker (serverId b) (failureThreshold b) (recoveryTimeout b)
    (monitoringPeriod b) (state b) (failureCount b) (successCount b)
    t (lastFailureTime b) (stats b).

Definition with_lastFailureTime (t : Z) (b : CircuitBreaker) : CircuitBreaker :=
  mk_breaker (serverId b) (failureThreshold b) (recoveryTimeout b)
    (monitoringPeriod b) (state b) (failureCount b) (successCount b)
    (nextAttempt b) (Some t) (stats b).

Definition is_open (b : CircuitBreaker) : bool :=
  match state b with OPEN => true | _ => false end.

Definition is_closed (b : CircuitBreaker) : bool :=
  match state b with CLOSED => true | _ => false end.

Definition is_half_open (b : CircuitBreaker) : bool :=
  match state b with HALF_OPEN => true | _ => false end.

Definition open_error (b : CircuitBreaker) : js_error :=
  mk_error "Error"
    ("熔断器开启 - 服务 " +:+ serverId b +:+ " 暂时不可用")
    (Some "CIRCUIT_BREAKER_OPEN") None.

(** [reset()] at time [now]. *)
Definition reset (now : Z) (b : CircuitBreaker) : CircuitBreaker :=
  with_nextAttempt now
    (with_successCount 0 (with_failureCount 0 (with_state CLOSED b))).

(** [trip()] at time [now]. *)
Definition trip (now : Z) (b : CircuitBreaker) : CircuitBreaker :=
  with_stats
    (fun s => mk_breaker_stats (totalRequests s) (totalFailures s)
                (totalSuccesses s) (circuitBreakerTrips s + 1))
    (with_nextAttempt (now + recoveryTimeout b) (with_state OPEN b)).

Definition onSuccess (now : Z) (b : CircuitBreaker) : CircuitBreaker :=
  let b :=
    with_stats
      (fun s => mk_breaker_stats (totalRequests s) (totalFailures s)
                  (totalSuccesses s + 1) (circuitBreakerTrips s)) b in
  let b := with_successCount (successCount b + 1) b in
  if is_half_open b then reset now b
  else if is_closed b then
    with_failureCount (Z.max 0 (failureCount b - 1)) b
  else b.

Definition onFailure (now : Z) (b : CircuitBreaker) : CircuitBreaker :=
  let b :=
    with_stats
      (fun s => mk_breaker_stats (totalRequests s) (totalFailures s + 1)
                  (totalSuccesses s) (circuitBreakerTrips s)) b in
  let b := with_failureCount (failureCount b + 1) b in
  let b := with_lastFailureTime now b in
  if is_closed b && (failureThreshold b <=? failureCount b) then trip now b
  else if is_half_open b then trip now b
  else b.

(** [execute(fn)] up to the point where [fn] is called: the request is
    counted, and an open breaker either refuses the call or moves to
    HALF_OPEN.  [now] is the [Date.now()] read by the check. *)
Definition enter (now : Z) (b : CircuitBreaker) : admission * CircuitBreaker :=
  let b :=
    with_stats
      (fun s => mk_breaker_stats (totalRequests s + 1) (totalFailures s)
                  (totalSuccesses s) (circuitBreakerTrips s)) b in
  if is_open b then
    if now <? nextAttempt b then (Refuse (open_error b), b)
    else (Invoke, with_state HALF_OPEN b)
  else (Invoke, b).

(** [execute(fn)] from the point where [await fn()] settles with [r],
    at time [now]. *)
Definition settle {A : Type} (now : Z) (r : completion A) (b : CircuitBreaker)
  : completion A * CircuitBreaker :=
  match r with
  | Return a => (Return a, onSuccess now b)
  | Throw e => (Throw e, onFailure now b)
  end.

(** A whole [execute(fn)] with no other call interleaved: [fn] is
    given its two clock readings and its settled outcome. *)
Definition execute {A : Type} (t_enter t_settle : Z) (fn : completion A)
    (b : CircuitBreaker) : completion A * CircuitBreaker :=
  match enter t_enter b with
  | (Refuse e, b') => (Throw e, b')
  | (Invoke, b') => settle t_settle fn b'
  end.

Definition canExecute (now : Z) (b : CircuitBreaker) : bool :=
  match state b with
  | CLOSED => true
  | OPEN => nextAttempt b <=? now
  | HALF_OPEN => true
  end.

Definition forceReset (now : Z) (b : CircuitBreaker) : CircuitBreaker :=
  reset now b.

End Breaker.

Record CircuitBreakerManager : Type := mk_manager {
  breakers : gmap string CircuitBreaker;
  defaultOptions : breaker_options
}.

Module BreakerManager.

(** [{ failureThreshold: 5, recoveryTimeout: 30000,
      monitoringPeriod: 60000, ...defaultOptions }] *)
Definition merge (base over : breaker_options) : breaker_options :=
  mk_breaker_options
    (match opt_failureThreshold over with
     | Some n => Some n | None => opt_failureThreshold base end)
    (match opt_recoveryTimeout over with
     | Some n => Some n | None => opt_recoveryTimeout base end)
    (match opt_monitoringPeriod over with
     | Some n => Some n | None => opt_monitoringPeriod base end).

Definition no_options : breaker_options := mk_breaker_options None None None.

Definition create (defaults : breaker_options) : CircuitBreakerManager :=
  mk_manager ∅
    (merge (mk_breaker_options (Some 5) (Some 30000) (Some 60000)) defaults).

(** [getBreaker(serverId, options)]: the breaker of [id], created on
    first use. *)
Definition getBreaker (now : Z) (id : string) (options : breaker_options)
    (m : CircuitBreakerManager) : CircuitBreaker * CircuitBreakerManager :=
  match breakers m !! id with
  | Some b => (b, m)
  | None =>
      let b := Breaker.create now id (merge (defaultOptions m) options) in
      (b, mk_manager (<[id := b]> (breakers m)) (defaultOptions m))
  end.

(** Writing a breaker back after one of its methods ran. *)
Definition update (id : string) (b : CircuitBreaker) (m : CircuitBreakerManager)
  : CircuitBreakerManager :=
  mk_manager (<[id := b]> (breakers m)) (defaultOptions m).

Definition resetAll (now : Z) (m : CircuitBreakerManager) : CircuitBreakerManager :=
  mk_manager (Breaker.forceReset now <$> breakers m) (defaultOptions m).

End BreakerManager.

(** ** Static tables

    [table[key]] on an object literal whose own values are numbers: an own
    property, a member inherited from [Object.prototype] (a function, or
    the prototype itself for [__proto__]), or [undefined]. *)

Inductive lookup : Type :=
  | Own (n : Z)
  | Inherited (name : string)
  | Absent.

(** What [table[key] || d] evaluates to: a number or an inherited member. *)
Inductive entry_value : Type :=
  | Num (n : Z)
  | Member (name : string).

Definition object_prototype : list string :=
  ["constructor"; "__proto__"; "hasOwnProperty"; "isPrototypeOf";
   "propertyIsEnumerable"; "toLocaleString"; "toString"; "valueOf";
   "__defineGetter__"; "__defineSetter__"; "__lookupGetter__";
   "__lookupSetter__"].

Fixpoint table_get (table : list (string * Z)) (key : string) : option Z :=
  match table with
  | [] => None
  | (k, n) :: rest => if String.eqb key k then Some n else table_get rest key
  end.

Definition index (table : list (string * Z)) (key : value) : lookup :=
  let k := JS.to_String key in
  match table_get table k with
  | Some n => Own n
  | None => if existsb (String.eqb k) object_prototype then Inherited k else Absent
  end.

(** [table[key] || d] *)
Definition index_or (table : list (string * Z)) (key : value) (d : Z) : entry_value :=
  match index table key with
  | Own n => Num (if n =? 0 then d else n)
  | Inherited name => Member name
  | Absent => Num d
  end.

(** ** cache.js *)

(** An entry of node-cache: the stored value and its expiry in ms since
    the epoch, 0 for an entry that never expires. *)
Record cache_entry : Type := mk_entry {
  entry_v : value;
  entry_t : Z
}.

Module NodeCache.

Definition maxKeys : Z := 1000.

Definition expired (now : Z) (e : cache_entry) : bool :=
  negb (entry_t e =? 0) && (entry_t e <? now).

(** [get(key)]: an expired entry is deleted on access. *)
Definition get (now : Z) (key : string) (data : gmap string cache_entry)
  : value * gmap string cache_entry :=
  match data !! key with
  | Some e => if expired now e then (VUndefined, delete key data)
              else (entry_v e, data)
  | None => (VUndefined, data)
  end.

(** The expiry [_wrap] computes.  A [ttl] that is not a number gives
    NaN, which no clock reading exceeds: the entry never expires. *)
Definition livetime (now : Z) (ttl : entry_value) : Z :=
  match ttl with
  | Num n => if n =? 0 then 0 else now + n * 1000
  | Member _ => 0
  end.

Definition cache_full : js_error :=
  mk_error "ECACHEFULL" "Cache max keys amount exceeded" None None.

(** [set(key, value, ttl)]: throws once [maxKeys] keys are stored. *)
Definition set (now : Z) (key : string) (v : value) (ttl : entry_value)
    (data : gmap string cache_entry) : completion (gmap string cache_entry) :=
  if maxKeys <=? Z.of_nat (size data) then Throw cache_full
  else Return (<[key := mk_entry v (livetime now ttl)]> data).

(** The periodic sweep ([checkperiod]). *)
Definition checkData (now : Z) (data : gmap string cache_entry)
  : gmap string cache_entry :=
  filter (fun kv => expired now (snd kv) = false) data.

End NodeCache.

Record CacheManager : Type := mk_cache {
  cache : gmap string cache_entry;
  hits : Z;
  misses : Z;
  sets : Z
}.

Module Cache.

Definition cacheTTL : list (string * Z) :=
  [("initialize", 600); ("tools/list", 300); ("tools/call", 0)].

Definition create : CacheManager := mk_cache ∅ 0 0 0.

Definition generateCacheKey (id : string) (mcpRequest : value)
  : completion string :=
  method ← JS.get mcpRequest "method";
  params ← JS.get mcpRequest "params";
  paramsHash ←
    (if JS.truthy params then
       match JS.JSON_stringify params with
       | Some s => Return (MD5.md5_hex s)
       | None => Throw (TypeError "The data argument must be of type string")
       end
     else Return "no-params");
  Return (id +:+ ":" +:+ JS.to_String method +:+ ":" +:+ paramsHash).

(** [ttl !== undefined && ttl > 0]; an inherited member is not a
    number greater than 0. *)
Definition shouldCache (method : value) : bool :=
  match index cacheTTL method with
  | Own ttl => 0 <? ttl
  | Inherited _ => false
  | Absent => false
  end.

Definition getCacheTTL (method : value) : entry_value :=
  index_or cacheTTL method 0.

Definition get (now : Z) (id : string) (mcpRequest : value) (cm : CacheManager)
  : completion value * CacheManager :=
  match JS.get mcpRequest "method" with
  | Throw e => (Throw e, cm)
  | Return method =>
      if negb (shouldCache method) then (Return VNull, cm)
      else
        match generateCacheKey id mcpRequest with
        | Throw e => (Throw e, cm)
        | Return key =>
            let '(cached, data) := NodeCache.get now key (cache cm) in
            if JS.truthy cached then
              (Return cached, mk_cache data (hits cm + 1) (misses cm) (sets cm))
            else
              (Return VNull, mk_cache data (hits cm) (misses cm + 1) (sets cm))
        end
  end.

Definition set (now : Z) (id : string) (mcpRequest response : value)
    (cm : CacheManager) : completion unit * CacheManager :=
  match JS.get mcpRequest "method" with
  | Throw e => (Throw e, cm)
  | Return method =>
      if negb (shouldCache method) then (Return tt, cm)
      else
        match JS.get response "error" with
        | Throw e => (Throw e, cm)
        | Return err =>
            if JS.truthy err then (Return tt, cm)
            else
              match generateCacheKey id mcpRequest with
              | Throw e => (Throw e, cm)
              | Return key =>
                  match NodeCache.set now key response (getCacheTTL method)
                          (cache cm) with
                  | Throw e => (Throw e, cm)
                  | Return data =>
                      (Return tt,
                       mk_cache data (hits cm) (misses cm) (sets cm + 1))
                  end
              end
        end
  end.

Definition clearServerCache (id : string) (cm : CacheManager) : CacheManager :=
  mk_cache
    (filter (fun kv => String.prefix (id +:+ ":") (fst kv) = false) (cache cm))
    (hits cm) (misses cm) (sets cm).

Definition clearAll (cm : CacheManager) : CacheManager :=
  mk_cache ∅ (hits cm) (misses cm) (sets cm).

End Cache.

(** ** proxy.js *)

Record proxy_config : Type := mk_config {
  maxConcurrentRequests : Z;
  requestTimeout : Z;
  connectionTimeout : Z;
  retryAttempts : Z;
  retryDelay : Z;
  maxRetryDelay : Z;
  difyBaseUrl : string
}.

(** The [options] object given to the constructor: a key is present or
    not. *)
Record proxy_options : Type := mk_options {
  o_maxConcurrentRequests : option Z;
  o_requestTimeout : option Z;
  o_connectionTimeout : option Z;
  o_retryAttempts : option Z;
  o_retryDelay : option Z;
  o_maxRetryDelay : option Z;
  o_difyBaseUrl : option string
}.

(** The collaborators a request reaches, in the order it reaches them. *)
Inductive event : Type :=
  | CacheGet (id : string)
  | BreakerGet (id : string)
  | QueueAdd (priority : entry_value)
  | HttpPost (url : string)
  | CacheSet (id : string).

(** The proxy manager: its configuration, its two registries, and the
    record of calls made to cache, breaker registry, queue and network. *)
Record ProxyManager : Type := mk_proxy {
  config : proxy_config;
  cacheManager : CacheManager;
  circuitBreakerManager : CircuitBreakerManager;
  calls : list event
}.

(** What one request meets outside the proxy: the clock at the four
    points where the code reads it, what [axios.post] settles with once
    its retries are over ([Return] carries [response.data]), and whether
    the 40 s timer of the queue fires before the task settles. *)
Record world : Type := mk_world {
  t_lookup : Z;
  t_admit : Z;
  t_settle : Z;
  t_store : Z;
  upstream : completion value;
  queue_timeout : bool
}.

Module Proxy.

(** [{ k: options.k || d, ..., ...options }]: the spread at the end
    puts back whatever value a present key has, so a default only fills
    an absent key. *)
Definition configure (o : proxy_options) : proxy_config :=
  mk_config
    (default 50 (o_maxConcurrentRequests o))
    (default 35000 (o_requestTimeout o))
    (default 8000 (o_connectionTimeout o))
    (default 3 (o_retryAttempts o))
    (default 500 (o_retryDelay o))
    (default 3000 (o_maxRetryDelay o))
    (default "http://dify.ireborn.com.cn" (o_difyBaseUrl o)).

Definition no_options : proxy_options :=
  mk_options None None None None None None None.

Definition default_config : proxy_config := configure no_options.

(** [new ProxyManager(options)] *)
Definition create (o : proxy_options) : ProxyManager :=
  mk_proxy (configure o) Cache.create
    (BreakerManager.create (mk_breaker_options (Some 5) (Some 30000) None))
    [].

Definition record (ev : event) (p : ProxyManager) : ProxyManager :=
  mk_proxy (config p) (cacheManager p) (circuitBreakerManager p)
    (calls p ++ [ev]).

Definition with_cache (cm : CacheManager) (p : ProxyManager) : ProxyManager :=
  mk_proxy (config p) cm (circuitBreakerManager p) (calls p).

Definition with_breakers (m : CircuitBreakerManager) (p : ProxyManager)
  : ProxyManager :=
  mk_proxy (config p) (cacheManager p) m (calls p).

Definition priorities : list (string * Z) :=
  [("initialize", 10); ("tools/list", 8); ("tools/call", 5);
   ("notifications/initialized", 7)].

Definition getPriority (method : value) : entry_value :=
  index_or priorities method 1.

(** The value of the [&&] chain: the request itself when it is falsy,
    else [false] at the first test that fails, else the last test. *)
Definition isValidMCPRequest (mcpRequest : value) : completion value :=
  if negb (JS.truthy mcpRequest) then Return mcpRequest
  else
    jsonrpc ← JS.get mcpRequest "jsonrpc";
    if negb (JS.strict_eq_str jsonrpc "2.0") then Return (VBool false)
    else
      method ← JS.get mcpRequest "method";
      if negb (JS.is_string method) then Return (VBool false)
      else
        rid ← JS.get mcpRequest "id";
        Return (VBool (negb (JS.is_undefined rid))).

Definition timeout_error : js_error :=
  mk_error "TimeoutError" "Promise timed out after 40000 milliseconds"
    None None.

Definition format_error : js_error :=
  PlainError "Dify 返回了无效的响应格式".

Definition forwardRequest (w : world) (id : string) (mcpRequest : value)
    (p : ProxyManager) : completion value * ProxyManager :=
  let difyUrl := difyBaseUrl (config p) +:+ "/mcp/server/" +:+ id +:+ "/mcp" in
  match JS.get mcpRequest "method" with
  | Throw e => (Throw e, p)
  | Return _ =>
      let p := record (HttpPost difyUrl) p in
      match upstream w with
      | Return data =>
          if JS.truthy data && JS.typeof_object data then (Return data, p)
          else (Throw format_error, p)
      | Throw e => (Throw e, p)
      end
  end.

(** [globalQueue.add(() => circuitBreaker.execute(() =>
    forwardRequest(...)), { priority })] for the breaker [b] of [id].
    When the timer of the queue fires first, the caller sees the
    timeout while the call is still outstanding, and the breaker has
    not yet been told of any outcome. *)
Definition dispatch (w : world) (id : string) (mcpRequest : value)
    (b : CircuitBreaker) (p : ProxyManager) : completion value * ProxyManager :=
  match Breaker.enter (t_admit w) b with
  | (Refuse e, b') =>
      (Throw e, with_breakers (BreakerManager.update id b' (circuitBreakerManager p)) p)
  | (Invoke, b') =>
      let p := with_breakers (BreakerManager.update id b' (circuitBreakerManager p)) p in
      let '(r, p) := forwardRequest w id mcpRequest p in
      if queue_timeout w then (Throw timeout_error, p)
      else
        let '(r, b'') := Breaker.settle (t_settle w) r b' in
        (r, with_breakers (BreakerManager.update id b'' (circuitBreakerManager p)) p)
  end.

(** The body of the [try] block. *)
Definition attempt (w : world) (id : string) (mcpRequest : value)
    (p : ProxyManager) : completion value * ProxyManager :=
  match isValidMCPRequest mcpRequest with
  | Throw e => (Throw e, p)
  | Return valid =>
  if negb (JS.truthy valid) then
    match JS.get mcpRequest "id" with
    | Throw e => (Throw e, p)
    | Return rid =>
        (Return (createErrorResponse ErrorCodes.INVALID_REQUEST
                   "无效的 MCP 请求格式" VNull rid), p)
    end
  else
    let p := record (CacheGet id) p in
    match Cache.get (t_lookup w) id mcpRequest (cacheManager p) with
    | (Throw e, cm) => (Throw e, with_cache cm p)
    | (Return cached, cm) =>
        let p := with_cache cm p in
        if JS.truthy cached then (Return cached, p)
        else
          let p := record (BreakerGet id) p in
          let '(b, m) :=
            BreakerManager.getBreaker (t_lookup w) id BreakerManager.no_options
              (circuitBreakerManager p) in
          let p := with_breakers m p in
          match JS.get mcpRequest "method" with
          | Throw e => (Throw e, p)
          | Return method =>
              let p := record (QueueAdd (getPriority method)) p in
              match dispatch w id mcpRequest b p with
              | (Throw e, p) => (Throw e, p)
              | (Return result, p) =>
                  let p := record (CacheSet id) p in
                  match Cache.set (t_store w) id mcpRequest result
                          (cacheManager p) with
                  | (Throw e, cm) => (Throw e, with_cache cm p)
                  | (Return _, cm) => (Return result, with_cache cm p)
                  end
              end
          end
    end
  end.

(** The [catch] block. *)
Definition recover (error : js_error) (id : string) (mcpRequest : value)
  : completion value :=
  _ ← JS.get mcpRequest "method";
  if match err_code error with
     | Some c => String.eqb c "CIRCUIT_BREAKER_OPEN"
     | None => false
     end
  then
    rid ← JS.get mcpRequest "id";
    Return (createErrorResponse ErrorCodes.CIRCUIT_BREAKER_OPEN
              (err_message error) (VObj [("server_id", VStr id)]) rid)
  else Return (handleProxyError error id).

(** [processRequest(serverId, mcpRequest)]: [Return] is the value the
    promise resolves to, [Throw] the exception it rejects with. *)
Definition processRequest (w : world) (id : string) (mcpRequest : value)
    (p : ProxyManager) : completion value * ProxyManager :=
  match attempt w id mcpRequest p with
  | (Return response, p') => (Return response, p')
  | (Throw error, p') => (recover error id mcpRequest, p')
  end.

Definition cleanup (now : Z) (p : ProxyManager) : ProxyManager :=
  mk_proxy (config p) (Cache.clearAll (cacheManager p))
    (BreakerManager.resetAll now (circuitBreakerManager p)) (calls p).

End Proxy.

(** ** The retry policy handed to axios-retry

    [setupAxiosRetry] gives the library a retry count, a delay function
    and a retry condition.  The library's own predicates are written out
    as its source has them; [isRetryAllowed] (package is-retry-allowed, a
    deny-list of error codes) stays a parameter.  Every call of this
    proxy is an [axios.post]. *)

Module Retry.

Section Policy.

Variable isRetryAllowed : js_error -> bool.
Variable cfg : proxy_config.

Definition has_response (e : js_error) : bool :=
  match err_response e with Some _ => true | None => false end.

Definition code_truthy (e : js_error) : bool :=
  match err_code e with
  | Some c => negb (String.eqb c EmptyString)
  | None => false
  end.

Definition code_in (e : js_error) (l : list string) : bool :=
  match err_code e with
  | Some c => existsb (String.eqb c) l
  | None => false
  end.

Definition isNetworkError (e : js_error) : bool :=
  negb (has_response e) && code_truthy e
  && negb (code_in e ["ERR_CANCELED"; "ECONNABORTED"])
  && isRetryAllowed e.

Definition isRetryableError (e : js_error) : bool :=
  negb (code_in e ["ECONNABORTED"])
  && match err_response e with
     | None => true
     | Some (status, _) => (500 <=? status) && (status <=? 599)
     end.

Definition IDEMPOTENT_HTTP_METHODS : list string :=
  ["get"; "head"; "options"; "put"; "delete"].

Definition isIdempotentRequestError (e : js_error) : bool :=
  isRetryableError e && existsb (String.eqb "post") IDEMPOTENT_HTTP_METHODS.

Definition isNetworkOrIdempotentRequestError (e : js_error) : bool :=
  isNetworkError e || isIdempotentRequestError e.

(** [retryCondition]: [error.response && error.response.status >= 500]
    is the second disjunct. *)
Definition retryCondition (e : js_error) : bool :=
  isNetworkOrIdempotentRequestError e
  || match err_response e with
     | Some (status, _) => 500 <=? status
     | None => false
     end.

(** [retryDelay(retryCount)]; the library calls it with
    [retryCount >= 1]. *)
Definition retryDelayFn (retryCount : Z) : Z :=
  Z.min (retryDelay cfg * 2 ^ (retryCount - 1)) (maxRetryDelay cfg).

(** The loop of the library: attempt number [i] settles with
    [attempts i]; a failed attempt is repeated while
    [retryCount < retries] and the condition holds, after the delay
    of the incremented count.  The result is what [axios.post]
    settles with and the delays waited, oldest first. *)
Fixpoint retry_loop (remaining : nat) (retryCount : Z)
    (attempts : nat -> completion value) (i : nat)
  : completion value * list Z :=
  match attempts i with
  | Return data => (Return data, [])
  | Throw e =>
      match remaining with
      | O => (Throw e, [])
      | S remaining' =>
          if retryCondition e then
            let '(r, delays) :=
              retry_loop remaining' (retryCount + 1) attempts (S i) in
            (r, retryDelayFn (retryCount + 1) :: delays)
          else (Throw e, [])
      end
  end.

Definition axios_post (attempts : nat -> completion value)
  : completion value * list Z :=
  retry_loop (Z.to_nat (retryAttempts cfg)) 0 attempts 0.

End Policy.

End Retry.

(** ** Specification-side definitions and sample inputs *)

(** The envelope test in the words of the specification: the version
    field equals the literal, [method] is a non-empty string, and the
    [id] key is present. *)
Definition spec_valid_envelope (request : value) : bool :=
  match request with
  | VObj fs =>
      match JS.assoc "jsonrpc" fs, JS.assoc "method" fs, JS.assoc "id" fs with
      | Some (VStr v), Some (VStr m), Some _ =>
          String.eqb v "2.0" && negb (String.eqb m EmptyString)
      | _, _, _ => false
      end
  | _ => false
  end.

(** [v.k] read off a value that is neither [null] nor [undefined]. *)
Definition field (v : value) (k : string) : value :=
  default VUndefined (own v k).

Definition request (method : string) (params id : value) : value :=
  VObj [("jsonrpc", VStr "2.0"); ("method", VStr method);
        ("params", params); ("id", id)].

Definition world_of (now : Z) (reply : completion value) : world :=
  mk_world now now (now + 20) (now + 20) reply false.

Definition econnrefused : js_error :=
  mk_error "Error" "connect ECONNREFUSED" (Some "ECONNREFUSED") None.

Definition proxy0 : ProxyManager := Proxy.create Proxy.no_options.

Definition reply_ok : value := VObj [("result", VNum 1)].

Definition req_empty_method : value := request EmptyString (VObj []) (VNum 1).





(** A request that passes [isValidMCPRequest]. *)
Definition accepted (req : value) : bool :=
  match Proxy.isValidMCPRequest req with
  | Return v => JS.truthy v
  | Throw _ => false
  end.

(** Calls made one after the other on one breaker, each given its two
    clock readings, whose protected function fails with [e] whenever it
    is called. *)
Fixpoint failing_calls (e : js_error) (times : list (Z * Z)) (b : CircuitBreaker)
  : CircuitBreaker :=
  match times with
  | [] => b
  | (t1, t2) :: rest =>
      failing_calls e rest
        (snd (Breaker.execute t1 t2 (Throw e : completion value) b))
  end.

Definition breaker_open_sample : CircuitBreaker :=
  mk_breaker "X" 5 30000 60000 OPEN 5 0 31000 (Some 1000)
    (mk_breaker_stats 5 5 0 1).

Definition breaker_half_open_sample : CircuitBreaker :=
  mk_breaker "X" 5 30000 60000 HALF_OPEN 5 0 31000 (Some 1000)
    (mk_breaker_stats 6 5 0 1).

Definition breaker_closed_sample : CircuitBreaker :=
  mk_breaker "X" 5 30000 60000 CLOSED 3 8 0 (Some 1000)
    (mk_breaker_stats 11 3 8 0).

(** Requests handled one after the other, each in its own world. *)
Fixpoint serve (id : string) (req : value) (worlds : list world)
    (p : ProxyManager) : list (completion value) * ProxyManager :=
  match worlds with
  | [] => ([], p)
  | w :: rest =>
      let '(r, p1) := Proxy.processRequest w id req p in
      let '(rs, p2) := serve id req rest p1 in
      (r :: rs, p2)
  end.

Definition is_http (ev : event) : bool :=
  match ev with HttpPost _ => true | _ => false end.

(** The calls of a proxy that went to the network. *)
Definition http_calls (p : ProxyManager) : list event :=
  List.filter is_http (calls p).

Definition req_call : value := request "tools/call" (VObj []) (VNum 1).

Definition req_list : value := request "tools/list" (VObj []) (VNum 1).

Definition proxy_open_sample : ProxyManager :=
  mk_proxy Proxy.default_config Cache.create
    (mk_manager (<["X" := breaker_open_sample]> ∅)
       (mk_breaker_options (Some 5) (Some 30000) (Some 60000)))
    [].

Definition breaker_fresh_sample : CircuitBreaker :=
  Breaker.create 0 "Y" (mk_breaker_options (Some 5) (Some 30000) (Some 60000)).

Definition four_times : list (Z * Z) :=
  [(100, 110); (200, 210); (300, 310); (400, 410)].

Definition six_worlds : list world :=
  map (fun t => world_of t (Throw econnrefused))
    [1000; 2000; 3000; 4000; 5000; 6000].

(** [response.error] is truthy: the test [set] applies to a response. *)
Definition is_error_response (response : value) : bool :=
  match JS.get response "error" with
  | Return err => JS.truthy err
  | Throw _ => false
  end.

(** The operations that change a cache manager, and runs of them. *)
Inductive cache_op : Type :=
  | OpGet (now : Z) (id : string) (req : value)
  | OpSet (now : Z) (id : string) (req response : value)
  | OpClearServer (id : string)
  | OpClearAll
  | OpCheck (now : Z).

Definition cache_step (cm : CacheManager) (op : cache_op) : CacheManager :=
  match op with
  | OpGet now id req => snd (Cache.get now id req cm)
  | OpSet now id req response => snd (Cache.set now id req response cm)
  | OpClearServer id => Cache.clearServerCache id cm
  | OpClearAll => Cache.clearAll cm
  | OpCheck now =>
      mk_cache (NodeCache.checkData now (cache cm)) (hits cm) (misses cm) (sets cm)
  end.

Definition cache_run (ops : list cache_op) (cm : CacheManager) : CacheManager :=
  fold_left cache_step ops cm.

(** No stored response is an error response. *)
Definition error_free (cm : CacheManager) : Prop :=
  map_Forall (fun _ e => is_error_response (entry_v e) = false) (cache cm).

Definition reply_error : value :=
  VObj [("jsonrpc", VStr "2.0");
        ("error", VObj [("code", VNum (-32601)); ("message", VStr "Method not found")]);
        ("id", VNum 1)].

Definition http_error (status : Z) : js_error :=
  mk_error "AxiosError"
    ("Request failed with status code " +:+ JS.Z_to_string status)
    (Some (if status <? 500 then "ERR_BAD_REQUEST" else "ERR_BAD_RESPONSE"))
    (Some (status, VStr "upstream failure")).

Definition allow_all (e : js_error) : bool := true.


Definition internal_error_response (id : string) : value :=
  createErrorResponse ErrorCodes.INTERNAL_ERROR "内部服务器错误"
    (VObj [("server_id", VStr id)]) VUndefined.

(** ** Further code: registry statistics, breaker runs, the HTTP route *)

(** Operations on one breaker, and runs of them. *)
Inductive breaker_op : Type :=
  | BEnter (now : Z)
  | BSuccess (now : Z)
  | BFailure (now : Z)
  | BReset (now : Z).

Definition breaker_step (b : CircuitBreaker) (op : breaker_op) : CircuitBreaker :=
  match op with
  | BEnter now => snd (Breaker.enter now b)
  | BSuccess now => Breaker.onSuccess now b
  | BFailure now => Breaker.onFailure now b
  | BReset now => Breaker.forceReset now b
  end.

Definition breaker_run (ops : list breaker_op) (b : CircuitBreaker) : CircuitBreaker :=
  fold_left breaker_step ops b.

(** The counters of a breaker stay within the totals of its statistics. *)
Definition counters_ok (b : CircuitBreaker) : Prop :=
  0 <= failureCount b <= totalFailures (stats b)
  /\ 0 <= successCount b <= totalSuccesses (stats b)
  /\ 0 <= circuitBreakerTrips (stats b) <= totalFailures (stats b)
  /\ 0 <= totalRequests (stats b).

#[export] Instance breaker_state_eq_dec : EqDecision breaker_state.
Proof. solve_decision. Defined.

(** The number of breakers of a registry that are in state [s]. *)
Definition breakers_in (s : breaker_state) (m : gmap string CircuitBreaker) : Z :=
  Z.of_nat (size (filter (fun kv => state (snd kv) = s) m)).

Record manager_stats : Type := mk_manager_stats {
  totalBreakers : Z;
  openBreakers : Z;
  halfOpenBreakers : Z;
  closedBreakers : Z;
  totalTrips : Z
}.

Module Registry.

(** One turn of the loop of [getStats]. *)
Definition count (b : CircuitBreaker) (s : manager_stats) : manager_stats :=
  let trips := totalTrips s + circuitBreakerTrips (stats b) in
  match state b with
  | OPEN =>
      mk_manager_stats (totalBreakers s) (openBreakers s + 1)
        (halfOpenBreakers s) (closedBreakers s) trips
  | HALF_OPEN =>
      mk_manager_stats (totalBreakers s) (openBreakers s)
        (halfOpenBreakers s + 1) (closedBreakers s) trips
  | CLOSED =>
      mk_manager_stats (totalBreakers s) (openBreakers s)
        (halfOpenBreakers s) (closedBreakers s + 1) trips
  end.

(** [CircuitBreakerManager.getStats()] *)
Definition getStats (m : CircuitBreakerManager) : manager_stats :=
  map_fold (fun _ b s => count b s)
    (mk_manager_stats (Z.of_nat (size (breakers m))) 0 0 0 0)
    (breakers m).

End Registry.

Module Server.







End Server.

(** The expiry time of what [Cache.set] stores at [now] for a method. *)
Definition expiry_of (now : Z) (method : value) : Z :=
  NodeCache.livetime now (Cache.getCacheTTL method).

(** A cache with a thousand entries. *)
Definition full_cache : CacheManager :=
  mk_cache
    (list_to_map
       (map (fun n => (JS.Z_to_string (Z.of_nat n), mk_entry reply_ok 0))
          (seq 0 1000)))
    0 0 0.


Definition req_init : value :=
  request "initialize" (VObj [("protocolVersion", VStr "2024-11-05")]) (VNum 1).

Definition proxy_full_sample : ProxyManager :=
  mk_proxy Proxy.default_config full_cache
    (BreakerManager.create (mk_breaker_options (Some 5) (Some 30000) None)) [].

(** A proxy that has answered one [tools/list] request of backend X. *)
Definition proxy_warm_sample : ProxyManager :=
  snd (Proxy.processRequest (world_of 1000 (Return reply_ok)) "X" req_list proxy0).

(** The code [handleProxyError] gives an error. *)
Definition classify (e : js_error) : Z :=
  if code_is e "ECONNREFUSED" "ENOTFOUND" then ErrorCodes.SERVER_UNAVAILABLE
  else if code_is e "ETIMEDOUT" "ECONNABORTED" then ErrorCodes.REQUEST_TIMEOUT
  else match err_response e with
       | Some _ => ErrorCodes.PROXY_ERROR
       | None => ErrorCodes.INTERNAL_ERROR
       end.

Definition is_circuit_open (e : js_error) : bool :=
  match err_code e with
  | Some c => String.eqb c "CIRCUIT_BREAKER_OPEN"
  | None => false
  end.

Definition econnaborted : js_error :=
  mk_error "AxiosError" "timeout of 35000ms exceeded" (Some "ECONNABORTED") None.

(** Failures and successes taking turns, a failure first. *)
Fixpoint alternating (times : list (Z * Z)) : list breaker_op :=
  match times with
  | [] => []
  | (t1, t2) :: rest => BFailure t1 :: BSuccess t2 :: alternating rest
  end.

Definition sum_list (l : list Z) : Z := fold_right Z.add 0 l.

(** The forwarded call of a world fails: the timer of the queue does not
    fire, and [axios.post] rejects, or fulfils with a payload that
    [forwardRequest] refuses. *)
Definition call_fails (w : world) : bool :=
  negb (queue_timeout w)
  && match upstream w with
     | Throw _ => true
     | Return data => negb (JS.truthy data && JS.typeof_object data)
     end.

(** The clock reading at which the last call of the run [w :: ws]
    settles. *)
Fixpoint last_settle (w : world) (ws : list world) : Z :=
  match ws with
  | [] => t_settle w
  | w' :: rest => last_settle w' rest
  end.

Definition four_failing_worlds : list world :=
  map (fun t => world_of t (Throw econnrefused)) [2000; 3000; 4000; 5000].

(** * Properties *)

(** ** Sanity checks of the string and digest models *)

Example stringify_nested :
  JS.JSON_stringify
    (VObj [("name", VStr "a\b"); ("skip", VUndefined);
           ("args", VArr [VNum (-12); VUndefined; VBool true; VNull])])
  = Some ("{" +:+ JS.dquote +:+ "name" +:+ JS.dquote +:+ ":" +:+ JS.dquote
          +:+ "a\\b" +:+ JS.dquote +:+ "," +:+ JS.dquote +:+ "args" +:+ JS.dquote
          +:+ ":[-12,null,true,null]}").
Proof. reflexivity. Qed.

Example md5_empty : MD5.md5_hex EmptyString = "d41d8cd98f00b204e9800998ecf8427e".
Proof. vm_compute. reflexivity. Qed.

Example md5_abc : MD5.md5_hex "abc" = "900150983cd24fb0d6963f7d28e17f72".
Proof. vm_compute. reflexivity. Qed.

Example md5_two_blocks :
  MD5.md5_hex
    "12345678901234567890123456789012345678901234567890123456789012345678901234567890"
  = "57edf4a22be3c955ac49da2e2107b67a".
Proof. vm_compute. reflexivity. Qed.

(** ** Property access and error envelopes *)

Lemma get_defined (v : value) (k : string) :
  v <> VNull -> v <> VUndefined -> JS.get v k = Return (field v k).
Proof.
  intros Hn Hu. destruct v; try reflexivity; congruence.
Qed.


Lemma id_absent_without_id (code : Z) (msg : string) (data : value) :
  own (createErrorResponse code msg data VUndefined) "id" = None.
Proof. reflexivity. Qed.

Lemma handleProxyError_has_no_id (e : js_error) (id : string) :
  own (handleProxyError e id) "id" = None.
Proof.
  unfold handleProxyError.
  destruct (code_is e "ECONNREFUSED" "ENOTFOUND"); [reflexivity|].
  destruct (code_is e "ETIMEDOUT" "ECONNABORTED"); [reflexivity|].
  destruct (err_response e) as [[status body]|]; reflexivity.
Qed.


(** ** The entry point on requests that are values *)



(** C1 (defect in the code).  [processRequest] is meant never to throw,
    yet on the request [null], and on the request [undefined], its promise
    rejects with a raw TypeError: the validation branch reads
    [mcpRequest.id], and the [catch] block that receives that exception
    reads [mcpRequest.method] in turn.  Nothing else is touched. *)
Theorem processRequest_rejects_null_request (w : world) (id : string)
    (p : ProxyManager) :
  (exists e, Proxy.processRequest w id VNull p = (Throw e, p)
             /\ err_name e = "TypeError")
  /\ (exists e, Proxy.processRequest w id VUndefined p = (Throw e, p)
                /\ err_name e = "TypeError").
Proof.
  split; eexists; split; reflexivity.
Qed.

(** ** Envelope validation *)

Lemma isValid_object (req : value) :
  req <> VNull -> req <> VUndefined ->
  exists v,
    Proxy.isValidMCPRequest req = Return v
    /\ JS.truthy v =
         JS.truthy req
         && JS.strict_eq_str (field req "jsonrpc") "2.0"
         && JS.is_string (field req "method")
         && negb (JS.is_undefined (field req "id")).
Proof.
  intros Hn Hu. unfold Proxy.isValidMCPRequest.
  destruct (JS.truthy req) eqn:Ht; cbn [negb].
  - rewrite !(get_defined req _ Hn Hu). cbn.
    destruct (JS.strict_eq_str (field req "jsonrpc") "2.0"); cbn; eauto.
    destruct (JS.is_string (field req "method")); cbn; eauto.
  - eexists; split; [reflexivity|]. rewrite Ht. reflexivity.
Qed.

Lemma strict_eq_str_false (v : value) (lit : string) :
  v <> VStr lit -> JS.strict_eq_str v lit = false.
Proof.
  intros H. destruct v; try reflexivity. cbn.
  destruct (String.eqb_spec s lit); [subst; congruence | reflexivity].
Qed.

(** C2 (amended).  A request other than [null] and [undefined] whose
    version field is not the string 2.0, or whose [method] is not a
    string, or whose [id] is [undefined] (the key is absent), is answered
    with the error envelope of code -32600 echoing the request's id, and
    the proxy is left exactly as it was: no call to the cache, the breaker
    registry, the queue or the network is made. *)
Theorem malformed_envelope_rejected (w : world) (id : string) (req : value)
    (p : ProxyManager) :
  req <> VNull -> req <> VUndefined ->
  field req "jsonrpc" <> VStr "2.0"
  \/ JS.is_string (field req "method") = false
  \/ field req "id" = VUndefined ->
  exists resp,
    Proxy.processRequest w id req p = (Return resp, p)
    /\ resp = createErrorResponse ErrorCodes.INVALID_REQUEST
                "无效的 MCP 请求格式" VNull (field req "id")
    /\ error_code resp = Some (-32600).
Proof.
  intros Hn Hu Hbad.
  destruct (isValid_object req Hn Hu) as (v & Hv & Htruthy).
  assert (JS.truthy v = false) as Hfalse.
  { rewrite Htruthy. destruct Hbad as [H|[H|H]].
    - rewrite (strict_eq_str_false _ _ H).
      destruct (JS.truthy req); reflexivity.
    - rewrite H. destruct (JS.truthy req), (JS.strict_eq_str _ _); reflexivity.
    - rewrite H. cbn.
      destruct (JS.truthy req), (JS.strict_eq_str _ _), (JS.is_string _);
        reflexivity. }
  eexists. unfold Proxy.processRequest, Proxy.attempt.
  rewrite Hv, Hfalse. cbn [negb].
  rewrite (get_defined req "id" Hn Hu).
  split; [reflexivity|]. split; reflexivity.
Qed.

Lemma malformed_envelope_rejected_witness :
  exists resp,
    Proxy.processRequest (world_of 1000 (Return VNull)) "X"
      (VObj [("jsonrpc", VStr "1.0"); ("method", VStr "tools/list");
             ("id", VNum 7)]) proxy0
    = (Return resp, proxy0)
    /\ resp = createErrorResponse ErrorCodes.INVALID_REQUEST
                "无效的 MCP 请求格式" VNull (VNum 7)
    /\ error_code resp = Some (-32600).
Proof.
  apply (malformed_envelope_rejected (world_of 1000 (Return VNull)) "X"
           (VObj [("jsonrpc", VStr "1.0"); ("method", VStr "tools/list");
                  ("id", VNum 7)]) proxy0).
  - discriminate.
  - discriminate.
  - left. discriminate.
Defined.

(** C2 as stated fails: the specification counts an empty [method] as
    malformed, the code accepts every string.  The request below is
    forwarded to the upstream and its reply returned. *)
Lemma empty_method_is_forwarded :
  spec_valid_envelope req_empty_method = false
  /\ fst (Proxy.processRequest (world_of 1000 (Return reply_ok)) "X"
             req_empty_method proxy0) = Return reply_ok
  /\ error_code reply_ok <> Some (-32600)
  /\ calls (snd (Proxy.processRequest (world_of 1000 (Return reply_ok)) "X"
                   req_empty_method proxy0)) =
       [CacheGet "X"; BreakerGet "X"; QueueAdd (Num 1);
        HttpPost "http://dify.ireborn.com.cn/mcp/server/X/mcp"; CacheSet "X"].
Proof.
  split; [reflexivity|]. split; [vm_compute; reflexivity|].
  split; [discriminate|]. vm_compute. reflexivity.
Qed.

(** ** Cache keys *)

Lemma truthy_stringifies (v : value) :
  JS.truthy v = true -> exists s, JS.JSON_stringify v = Some s.
Proof.
  destruct v; cbn; intros H; try discriminate; eauto.
Qed.




(** ** The circuit breaker *)

Lemma enter_refuses (now : Z) (b : CircuitBreaker) :
  state b = OPEN -> now < nextAttempt b ->
  fst (Breaker.enter now b) = Refuse (Breaker.open_error b)
  /\ state (snd (Breaker.enter now b)) = OPEN
  /\ nextAttempt (snd (Breaker.enter now b)) = nextAttempt b.
Proof.
  intros Hs Hlt. unfold Breaker.enter, Breaker.is_open. cbn. rewrite Hs.
  destruct (Z.ltb_spec now (nextAttempt b)); [|lia]. cbn. auto.
Qed.

Lemma enter_probes (now : Z) (b : CircuitBreaker) :
  state b = OPEN -> nextAttempt b <= now ->
  fst (Breaker.enter now b) = Invoke
  /\ state (snd (Breaker.enter now b)) = HALF_OPEN.
Proof.
  intros Hs Hle. unfold Breaker.enter, Breaker.is_open. cbn. rewrite Hs.
  destruct (Z.ltb_spec now (nextAttempt b)); [lia|]. cbn. auto.
Qed.

Lemma enter_passes (now : Z) (b : CircuitBreaker) :
  state b <> OPEN ->
  fst (Breaker.enter now b) = Invoke
  /\ state (snd (Breaker.enter now b)) = state b
  /\ failureCount (snd (Breaker.enter now b)) = failureCount b.
Proof.
  intros Hs. unfold Breaker.enter, Breaker.is_open. cbn.
  destruct (state b) eqn:E; [ |congruence| ]; cbn; auto.
Qed.

Lemma enter_keeps_settings (now : Z) (b : CircuitBreaker) :
  failureThreshold (snd (Breaker.enter now b)) = failureThreshold b
  /\ recoveryTimeout (snd (Breaker.enter now b)) = recoveryTimeout b
  /\ serverId (snd (Breaker.enter now b)) = serverId b
  /\ failureCount (snd (Breaker.enter now b)) = failureCount b.
Proof.
  unfold Breaker.enter, Breaker.is_open. cbn.
  destruct (state b) eqn:E; cbn; auto.
  destruct (now <? nextAttempt b); cbn; auto.
Qed.

Lemma onFailure_half_open (now : Z) (b : CircuitBreaker) :
  state b = HALF_OPEN ->
  state (Breaker.onFailure now b) = OPEN
  /\ nextAttempt (Breaker.onFailure now b) = now + recoveryTimeout b
  /\ recoveryTimeout (Breaker.onFailure now b) = recoveryTimeout b.
Proof.
  intros Hs. unfold Breaker.onFailure, Breaker.is_closed, Breaker.is_half_open.
  cbn. rewrite Hs. cbn. auto.
Qed.

Lemma onFailure_closed (now : Z) (b : CircuitBreaker) :
  state b = CLOSED ->
  (failureCount b + 1 < failureThreshold b ->
     state (Breaker.onFailure now b) = CLOSED)
  /\ (failureThreshold b <= failureCount b + 1 ->
        state (Breaker.onFailure now b) = OPEN
        /\ nextAttempt (Breaker.onFailure now b) = now + recoveryTimeout b)
  /\ failureCount (Breaker.onFailure now b) = failureCount b + 1
  /\ failureThreshold (Breaker.onFailure now b) = failureThreshold b
  /\ recoveryTimeout (Breaker.onFailure now b) = recoveryTimeout b
  /\ serverId (Breaker.onFailure now b) = serverId b.
Proof.
  intros Hs. unfold Breaker.onFailure, Breaker.is_closed, Breaker.is_half_open.
  cbn. rewrite Hs. cbn.
  destruct (Z.leb_spec (failureThreshold b) (failureCount b + 1));
    cbn; rewrite ?Hs; repeat split; auto; lia.
Qed.

Lemma onSuccess_half_open (now : Z) (b : CircuitBreaker) :
  state b = HALF_OPEN ->
  state (Breaker.onSuccess now b) = CLOSED
  /\ failureCount (Breaker.onSuccess now b) = 0
  /\ successCount (Breaker.onSuccess now b) = 0.
Proof.
  intros Hs. unfold Breaker.onSuccess, Breaker.is_closed, Breaker.is_half_open.
  cbn. rewrite Hs. cbn. auto.
Qed.

Lemma onSuccess_closed (now : Z) (b : CircuitBreaker) :
  state b = CLOSED ->
  state (Breaker.onSuccess now b) = CLOSED
  /\ failureCount (Breaker.onSuccess now b) = Z.max 0 (failureCount b - 1).
Proof.
  intros Hs. unfold Breaker.onSuccess, Breaker.is_closed, Breaker.is_half_open.
  cbn. rewrite Hs. cbn. auto.
Qed.

(** C6.  A protected call that succeeds while the breaker is HALF_OPEN
    leaves it CLOSED with [failureCount] and [successCount] at zero; one
    that succeeds while it is CLOSED leaves it CLOSED with [failureCount]
    one lower, and never below zero. *)
Theorem success_resets_or_decays (t1 t2 : Z) (result : value)
    (b : CircuitBreaker) :
  (state b = HALF_OPEN ->
     fst (Breaker.execute t1 t2 (Return result) b) = Return result
     /\ state (snd (Breaker.execute t1 t2 (Return result) b)) = CLOSED
     /\ failureCount (snd (Breaker.execute t1 t2 (Return result) b)) = 0
     /\ successCount (snd (Breaker.execute t1 t2 (Return result) b)) = 0)
  /\ (state b = CLOSED ->
        fst (Breaker.execute t1 t2 (Return result) b) = Return result
        /\ state (snd (Breaker.execute t1 t2 (Return result) b)) = CLOSED
        /\ failureCount (snd (Breaker.execute t1 t2 (Return result) b))
             = Z.max 0 (failureCount b - 1)
        /\ (0 < failureCount b ->
              failureCount (snd (Breaker.execute t1 t2 (Return result) b))
                = failureCount b - 1)
        /\ 0 <= failureCount (snd (Breaker.execute t1 t2 (Return result) b))).
Proof.
  split; intros Hs.
  - assert (state b <> OPEN) as Hno by congruence.
    destruct (enter_passes t1 b Hno) as (Ha & Hst & _).
    unfold Breaker.execute.
    destruct (Breaker.enter t1 b) as [a b1]. cbn in Ha, Hst. subst a. cbn.
    rewrite Hs in Hst. split; [reflexivity|].
    exact (onSuccess_half_open t2 b1 Hst).
  - assert (state b <> OPEN) as Hno by congruence.
    destruct (enter_passes t1 b Hno) as (Ha & Hst & Hfc).
    unfold Breaker.execute.
    destruct (Breaker.enter t1 b) as [a b1]. cbn in Ha, Hst, Hfc. subst a. cbn.
    rewrite Hs in Hst.
    destruct (onSuccess_closed t2 b1 Hst) as (H1 & H2).
    rewrite H1, H2, Hfc. repeat split; lia.
Qed.

Lemma success_resets_or_decays_witness :
  (fst (Breaker.execute 40000 40020 (Return reply_ok) breaker_half_open_sample)
     = Return reply_ok
   /\ state (snd (Breaker.execute 40000 40020 (Return reply_ok)
                    breaker_half_open_sample)) = CLOSED
   /\ failureCount (snd (Breaker.execute 40000 40020 (Return reply_ok)
                           breaker_half_open_sample)) = 0
   /\ successCount (snd (Breaker.execute 40000 40020 (Return reply_ok)
                           breaker_half_open_sample)) = 0)
  /\ failureCount (snd (Breaker.execute 40000 40020 (Return reply_ok)
                          breaker_closed_sample)) = 3 - 1.
Proof.
  split.
  - apply (proj1 (success_resets_or_decays 40000 40020 reply_ok
                    breaker_half_open_sample)).
    reflexivity.
  - apply (proj2 (success_resets_or_decays 40000 40020 reply_ok
                    breaker_closed_sample)).
    + reflexivity.
    + reflexivity.
Defined.

(** C5 (amended).  Once [nextAttempt] is reached, the next call moves an
    OPEN breaker to HALF_OPEN and is passed to the backend; while the
    breaker is HALF_OPEN every further call is passed to the backend as
    well; and a call that fails while the breaker is HALF_OPEN trips it
    back to OPEN at once, whatever the failure count and threshold, with
    [nextAttempt = now + recoveryTimeout]. *)
Theorem half_open_passes_calls_and_retrips (now : Z) (e : js_error)
    (b : CircuitBreaker) :
  (state b = OPEN -> nextAttempt b <= now ->
     fst (Breaker.enter now b) = Invoke
     /\ state (snd (Breaker.enter now b)) = HALF_OPEN)
  /\ (state b = HALF_OPEN ->
        fst (Breaker.enter now b) = Invoke
        /\ state (snd (Breaker.enter now b)) = HALF_OPEN)
  /\ (state b = HALF_OPEN ->
        fst (Breaker.settle now (Throw e : completion value) b) = Throw e
        /\ state (snd (Breaker.settle now (Throw e : completion value) b)) = OPEN
        /\ nextAttempt (snd (Breaker.settle now (Throw e : completion value) b))
             = now + recoveryTimeout b).
Proof.
  split; [|split].
  - intros Hs Hle. exact (enter_probes now b Hs Hle).
  - intros Hs. assert (state b <> OPEN) as Hno by congruence.
    destruct (enter_passes now b Hno) as (Ha & Hst & _).
    rewrite Hst, Hs. auto.
  - intros Hs. cbn. split; [reflexivity|].
    destruct (onFailure_half_open now b Hs) as (H1 & H2 & _). auto.
Qed.

Lemma half_open_passes_calls_and_retrips_witness :
  (fst (Breaker.enter 31000 breaker_open_sample) = Invoke
   /\ state (snd (Breaker.enter 31000 breaker_open_sample)) = HALF_OPEN)
  /\ (fst (Breaker.enter 31000 breaker_half_open_sample) = Invoke
      /\ state (snd (Breaker.enter 31000 breaker_half_open_sample)) = HALF_OPEN)
  /\ state (snd (Breaker.settle 31000 (Throw econnrefused : completion value)
                   breaker_half_open_sample)) = OPEN.
Proof.
  split; [|split].
  - apply (proj1 (half_open_passes_calls_and_retrips 31000 econnrefused
                    breaker_open_sample)).
    + reflexivity.
    + vm_compute. discriminate.
  - apply (proj1 (proj2 (half_open_passes_calls_and_retrips 31000 econnrefused
                           breaker_half_open_sample))).
    reflexivity.
  - apply (proj2 (proj2 (half_open_passes_calls_and_retrips 31000 econnrefused
                           breaker_half_open_sample))).
    reflexivity.
Defined.

(** C5 as stated fails: with the probe of time 31000 still outstanding,
    a second call arriving at time 31001 finds the breaker HALF_OPEN and is
    passed to the backend too. *)
Lemma second_call_passes_during_probe :
  state breaker_open_sample = OPEN
  /\ nextAttempt breaker_open_sample <= 31000
  /\ fst (Breaker.enter 31000 breaker_open_sample) = Invoke
  /\ fst (Breaker.enter 31001 (snd (Breaker.enter 31000 breaker_open_sample)))
       = Invoke
  /\ ~ (exists e,
          fst (Breaker.enter 31001 (snd (Breaker.enter 31000 breaker_open_sample)))
            = Refuse e).
Proof.
  split; [reflexivity|]. split; [vm_compute; discriminate|].
  split; [reflexivity|]. split; [reflexivity|].
  intros [e He]. vm_compute in He. discriminate He.
Qed.

(** ** Consecutive failures *)

Lemma failing_calls_app (e : js_error) (l1 l2 : list (Z * Z)) (b : CircuitBreaker) :
  failing_calls e (l1 ++ l2) b = failing_calls e l2 (failing_calls e l1 b).
Proof.
  revert b. induction l1 as [|[t1 t2] l1 IH]; intros b; cbn; [reflexivity|].
  apply IH.
Qed.

Lemma failing_call_closed (e : js_error) (t1 t2 : Z) (b : CircuitBreaker) :
  state b = CLOSED ->
  snd (Breaker.execute t1 t2 (Throw e : completion value) b)
    = Breaker.onFailure t2 (snd (Breaker.enter t1 b))
  /\ state (snd (Breaker.enter t1 b)) = CLOSED.
Proof.
  intros Hs. assert (state b <> OPEN) as Hno by congruence.
  destruct (enter_passes t1 b Hno) as (Ha & Hst & _).
  unfold Breaker.execute.
  destruct (Breaker.enter t1 b) as [a b1]. cbn in *. subst a. cbn.
  split; [reflexivity | congruence].
Qed.

(** Below the threshold, failures only count up. *)
Lemma failures_below_threshold (e : js_error) (times : list (Z * Z)) :
  forall b : CircuitBreaker,
    state b = CLOSED ->
    failureCount b + Z.of_nat (length times) < failureThreshold b ->
    state (failing_calls e times b) = CLOSED
    /\ failureCount (failing_calls e times b)
         = failureCount b + Z.of_nat (length times)
    /\ failureThreshold (failing_calls e times b) = failureThreshold b
    /\ recoveryTimeout (failing_calls e times b) = recoveryTimeout b
    /\ serverId (failing_calls e times b) = serverId b.
Proof.
  induction times as [|[t1 t2] times IH]; intros b Hs Hlt.
  - cbn in *. repeat split; auto; lia.
  - cbn [failing_calls]. cbn [length] in Hlt.
    destruct (failing_call_closed e t1 t2 b Hs) as (-> & Hst).
    destruct (enter_keeps_settings t1 b) as (Hth & Hrt & Hid & Hfc).
    destruct (onFailure_closed t2 _ Hst) as (Hstay & _ & Hc & Ht & Hr & Hi).
    rewrite Hth, Hfc in Hstay.
    destruct (IH (Breaker.onFailure t2 (snd (Breaker.enter t1 b))))
      as (H1 & H2 & H3 & H4 & H5).
    + apply Hstay. lia.
    + rewrite Hc, Ht, Hfc, Hth. lia.
    + rewrite H1, H2, H3, H4, H5, Hc, Ht, Hr, Hi, Hfc, Hth, Hrt, Hid.
      cbn [length]. repeat split; auto; lia.
Qed.

(** The failure that reaches the threshold trips the breaker. *)
Lemma threshold_failures_trip (e : js_error) (times : list (Z * Z))
    (t1 t2 : Z) (b : CircuitBreaker) :
  state b = CLOSED -> failureCount b = 0 ->
  Z.of_nat (length times) + 1 = failureThreshold b ->
  state (failing_calls e (times ++ [(t1, t2)]) b) = OPEN
  /\ nextAttempt (failing_calls e (times ++ [(t1, t2)]) b)
       = t2 + recoveryTimeout b
  /\ serverId (failing_calls e (times ++ [(t1, t2)]) b) = serverId b.
Proof.
  intros Hs Hz Hlen. rewrite failing_calls_app.
  destruct (failures_below_threshold e times b Hs) as (H1 & H2 & H3 & H4 & H5);
    [lia|].
  set (b1 := failing_calls e times b) in *.
  cbn [failing_calls].
  destruct (failing_call_closed e t1 t2 b1 H1) as (-> & Hst).
  destruct (enter_keeps_settings t1 b1) as (Hth & Hrt & Hid & Hfc).
  destruct (onFailure_closed t2 _ Hst) as (_ & Htrip & _ & _ & _ & Hi).
  destruct Htrip as (Ho & Hn); [rewrite Hth, Hfc; lia|].
  rewrite Ho, Hn, Hi, Hrt, Hid, H4, H5. auto.
Qed.

(** ** The open breaker at the entry point *)

Lemma accepted_is_value (req : value) :
  accepted req = true -> req <> VNull /\ req <> VUndefined.
Proof.
  intros H. split; intros ->; discriminate H.
Qed.

Lemma accepted_valid (req : value) :
  accepted req = true ->
  exists v, Proxy.isValidMCPRequest req = Return v /\ JS.truthy v = true.
Proof.
  unfold accepted. destruct (Proxy.isValidMCPRequest req) as [v|e];
    [eauto | discriminate].
Qed.

Lemma open_breaker_short_circuits (w : world) (id : string) (req : value)
    (p : ProxyManager) (b : CircuitBreaker) :
  accepted req = true ->
  fst (Cache.get (t_lookup w) id req (cacheManager p)) = Return VNull ->
  breakers (circuitBreakerManager p) !! id = Some b ->
  state b = OPEN -> t_admit w < nextAttempt b ->
  exists resp p',
    Proxy.processRequest w id req p = (Return resp, p')
    /\ resp = createErrorResponse ErrorCodes.CIRCUIT_BREAKER_OPEN
                (err_message (Breaker.open_error b))
                (VObj [("server_id", VStr id)]) (field req "id")
    /\ error_code resp = Some (-32003)
    /\ calls p' =
         calls p ++ [CacheGet id; BreakerGet id;
                     QueueAdd (Proxy.getPriority (field req "method"))].
Proof.
  intros Hacc Hmiss Hb Hs Hlt.
  destruct (accepted_is_value req Hacc) as (Hn & Hu).
  destruct (accepted_valid req Hacc) as (v & Hv & Ht).
  destruct (enter_refuses (t_admit w) b Hs Hlt) as (Hr & _ & _).
  unfold Proxy.processRequest, Proxy.attempt.
  rewrite Hv, Ht. cbn [negb].
  cbn [cacheManager Proxy.record].
  destruct (Cache.get (t_lookup w) id req (cacheManager p)) as [[c|e] cm];
    cbn in Hmiss; [|discriminate]. injection Hmiss as ->.
  cbn [JS.truthy].
  unfold BreakerManager.getBreaker.
  cbn [circuitBreakerManager Proxy.record Proxy.with_cache]. rewrite Hb.
  rewrite (get_defined req "method" Hn Hu).
  unfold Proxy.dispatch.
  destruct (Breaker.enter (t_admit w) b) as [a b1]. cbn in Hr. subst a.
  unfold Proxy.recover.
  rewrite (get_defined req "method" Hn Hu), (get_defined req "id" Hn Hu).
  cbn. do 2 eexists. split; [reflexivity|]. split; [reflexivity|].
  split; [reflexivity|]. cbn. rewrite <- ?app_assoc. reflexivity.
Qed.

(** The scenario of the specification: a backend fails five times in a
    row; the sixth request within the recovery time is answered -32003 and
    only five calls went to the network. *)
Example sixth_request_is_refused :
  map (fun r => match r with
                | Return resp => error_code resp
                | Throw _ => None
                end)
      (fst (serve "Y" req_call six_worlds proxy0))
    = [Some (-32001); Some (-32001); Some (-32001); Some (-32001);
       Some (-32001); Some (-32003)]
  /\ length (http_calls (snd (serve "Y" req_call six_worlds proxy0))) = 5%nat.
Proof.
  split; vm_compute; reflexivity.
Qed.

(** ** The cache never holds an error response *)

Lemma set_skips_error_response (now : Z) (id : string) (req response : value)
    (cm : CacheManager) :
  is_error_response response = true ->
  snd (Cache.set now id req response cm) = cm.
Proof.
  unfold is_error_response, Cache.set. intros He.
  destruct (JS.get req "method") as [m|e]; [|reflexivity].
  destruct (Cache.shouldCache m); [|reflexivity]. cbn [negb].
  destruct (JS.get response "error") as [err|e]; [|discriminate].
  rewrite He. reflexivity.
Qed.

Lemma set_keeps_error_free (now : Z) (id : string) (req response : value)
    (cm : CacheManager) :
  error_free cm -> error_free (snd (Cache.set now id req response cm)).
Proof.
  unfold error_free, Cache.set. intros Hinv.
  destruct (JS.get req "method") as [m|e]; [|exact Hinv].
  destruct (Cache.shouldCache m); [|exact Hinv]. cbn [negb].
  destruct (JS.get response "error") as [err|e] eqn:Herr; [|exact Hinv].
  destruct (JS.truthy err) eqn:Ht; [exact Hinv|].
  destruct (Cache.generateCacheKey id req) as [key|e]; [|exact Hinv].
  unfold NodeCache.set.
  destruct (NodeCache.maxKeys <=? Z.of_nat (size (cache cm))); [exact Hinv|].
  cbn. apply map_Forall_insert_2; [|exact Hinv].
  cbn. unfold is_error_response. rewrite Herr. exact Ht.
Qed.

Lemma get_keeps_error_free (now : Z) (id : string) (req : value)
    (cm : CacheManager) :
  error_free cm -> error_free (snd (Cache.get now id req cm)).
Proof.
  unfold error_free, Cache.get. intros Hinv.
  destruct (JS.get req "method") as [m|e]; [|exact Hinv].
  destruct (Cache.shouldCache m); [|exact Hinv]. cbn [negb].
  destruct (Cache.generateCacheKey id req) as [key|e]; [|exact Hinv].
  unfold NodeCache.get.
  destruct (cache cm !! key) as [e|] eqn:Hk.
  - destruct (NodeCache.expired now e).
    + cbn. apply map_Forall_delete. exact Hinv.
    + destruct (JS.truthy (entry_v e)); cbn; exact Hinv.
  - cbn. exact Hinv.
Qed.

Lemma get_returns_stored (now : Z) (id : string) (req v : value)
    (cm : CacheManager) :
  error_free cm ->
  fst (Cache.get now id req cm) = Return v -> is_error_response v = false.
Proof.
  unfold error_free, Cache.get. intros Hinv.
  destruct (JS.get req "method") as [m|e]; [|discriminate].
  destruct (Cache.shouldCache m); cbn [negb];
    [|intros [= <-]; reflexivity].
  destruct (Cache.generateCacheKey id req) as [key|e]; [|discriminate].
  unfold NodeCache.get.
  destruct (cache cm !! key) as [e|] eqn:Hk.
  - destruct (NodeCache.expired now e).
    + cbn. intros [= <-]. reflexivity.
    + destruct (JS.truthy (entry_v e)); cbn; intros [= <-];
        [exact (Hinv key e Hk) | reflexivity].
  - cbn. intros [= <-]. reflexivity.
Qed.

Lemma filter_keeps_forall (Q : string -> cache_entry -> Prop)
    (P : string * cache_entry -> Prop) `{!forall kv, Decision (P kv)}
    (data : gmap string cache_entry) :
  map_Forall Q data -> map_Forall Q (filter P data).
Proof.
  intros Hall k e Hk. apply map_lookup_filter_Some in Hk as [Hk _].
  exact (Hall k e Hk).
Qed.

Lemma run_keeps_error_free (ops : list cache_op) :
  forall cm : CacheManager, error_free cm -> error_free (cache_run ops cm).
Proof.
  induction ops as [|op ops IH]; intros cm Hinv; [exact Hinv|].
  cbn. apply IH. destruct op; cbn.
  - apply get_keeps_error_free, Hinv.
  - apply set_keeps_error_free, Hinv.
  - unfold error_free in *. cbn. apply filter_keeps_forall, Hinv.
  - unfold error_free. cbn. apply map_Forall_empty.
  - unfold error_free in *. cbn. apply filter_keeps_forall, Hinv.
Qed.

(** A lookup that missed misses again, at whatever time, until something
    is stored. *)
Lemma miss_is_stable (t1 t2 : Z) (id : string) (req : value) (cm : CacheManager) :
  fst (Cache.get t1 id req cm) = Return VNull ->
  fst (Cache.get t2 id req (snd (Cache.get t1 id req cm))) = Return VNull.
Proof.
  unfold Cache.get.
  destruct (JS.get req "method") as [m|e] eqn:Hm; [|discriminate].
  destruct (Cache.shouldCache m) eqn:Hc; cbn [negb]; [|reflexivity].
  destruct (Cache.generateCacheKey id req) as [key|e] eqn:Hkey; [|discriminate].
  unfold NodeCache.get.
  destruct (cache cm !! key) as [e|] eqn:Hk.
  - destruct (NodeCache.expired t1 e) eqn:Hx.
    + cbn. rewrite lookup_delete_eq. reflexivity.
    + destruct (JS.truthy (entry_v e)) eqn:Ht; cbn.
      * intros [= Hv]. rewrite Hv in Ht. discriminate Ht.
      * intros _. rewrite Hk.
        destruct (NodeCache.expired t2 e); cbn; [reflexivity|].
        rewrite Ht. reflexivity.
  - cbn. intros _. rewrite Hk. reflexivity.
Qed.

(** ** Requests that reach the network *)

Lemma processRequest_state (w : world) (id : string) (req : value)
    (p : ProxyManager) :
  snd (Proxy.processRequest w id req p) = snd (Proxy.attempt w id req p)
  /\ (forall resp, fst (Proxy.attempt w id req p) = Return resp ->
        fst (Proxy.processRequest w id req p) = Return resp).
Proof.
  unfold Proxy.processRequest.
  destruct (Proxy.attempt w id req p) as [[resp|e] p']; cbn; split; auto.
  discriminate.
Qed.

Lemma set_error_response_returns (now : Z) (id : string) (req response : value)
    (cm : CacheManager) :
  req <> VNull -> req <> VUndefined ->
  is_error_response response = true ->
  Cache.set now id req response cm = (Return tt, cm).
Proof.
  intros Hn Hu. unfold is_error_response, Cache.set. intros He.
  rewrite (get_defined req "method" Hn Hu).
  destruct (Cache.shouldCache (field req "method")); [|reflexivity]. cbn [negb].
  destruct (JS.get response "error") as [err|e]; [|discriminate].
  rewrite He. reflexivity.
Qed.

(** What an accepted request does once the cache has missed and the
    breaker lets it through. *)
Lemma forwarded_call (w : world) (id : string) (req : value)
    (p : ProxyManager) (b : CircuitBreaker) :
  accepted req = true ->
  fst (Cache.get (t_lookup w) id req (cacheManager p)) = Return VNull ->
  fst (BreakerManager.getBreaker (t_lookup w) id BreakerManager.no_options
         (circuitBreakerManager p)) = b ->
  fst (Breaker.enter (t_admit w) b) = Invoke ->
  exists post,
    calls (snd (Proxy.attempt w id req p))
      = calls p ++ [CacheGet id; BreakerGet id;
                    QueueAdd (Proxy.getPriority (field req "method"));
                    HttpPost (difyBaseUrl (config p) +:+ "/mcp/server/"
                                +:+ id +:+ "/mcp")] ++ post
    /\ (post = [] \/ post = [CacheSet id])
    /\ config (snd (Proxy.attempt w id req p)) = config p
    /\ (forall data,
          queue_timeout w = false -> upstream w = Return data ->
          JS.truthy data && JS.typeof_object data = true ->
          is_error_response data = true ->
          fst (Proxy.attempt w id req p) = Return data
          /\ cacheManager (snd (Proxy.attempt w id req p))
             = snd (Cache.get (t_lookup w) id req (cacheManager p))
          /\ breakers (circuitBreakerManager (snd (Proxy.attempt w id req p)))
               !! id
             = Some (Breaker.onSuccess (t_settle w)
                       (snd (Breaker.enter (t_admit w) b)))).
Proof.
  intros Hacc Hmiss Hb Hadm.
  destruct (accepted_is_value req Hacc) as (Hn & Hu).
  destruct (accepted_valid req Hacc) as (v & Hv & Ht).
  unfold Proxy.attempt.
  rewrite Hv, Ht. cbn [negb].
  cbn [cacheManager Proxy.record].
  destruct (Cache.get (t_lookup w) id req (cacheManager p)) as [[c|e] cm];
    cbn in Hmiss; [|discriminate]. injection Hmiss as ->.
  cbn [JS.truthy snd].
  cbn [circuitBreakerManager Proxy.record Proxy.with_cache].
  destruct (BreakerManager.getBreaker (t_lookup w) id BreakerManager.no_options
              (circuitBreakerManager p)) as [b' m]. cbn in Hb. subst b'.
  rewrite (get_defined req "method" Hn Hu).
  unfold Proxy.dispatch.
  destruct (Breaker.enter (t_admit w) b) as [a b1]. cbn in Hadm. subst a.
  unfold Proxy.forwardRequest.
  rewrite (get_defined req "method" Hn Hu).
  cbn [snd].
  destruct (upstream w) as [data|e] eqn:Hup;
    [destruct (JS.truthy data && JS.typeof_object data) eqn:Hobj|];
    destruct (queue_timeout w) eqn:Hq; cbn.
  - exists []. rewrite <- ?app_assoc. cbn.
    split; [reflexivity|]. split; [auto|]. split; [reflexivity|].
    intros data' [=].
  - destruct (Cache.set (t_store w) id req data cm) as [[u|e] cm'] eqn:Hset;
      cbn; exists [CacheSet id]; rewrite <- ?app_assoc; cbn;
      (split; [reflexivity|]); (split; [auto|]); (split; [reflexivity|]);
      intros data' _ [= <-] _ Herr;
      rewrite (set_error_response_returns _ _ _ _ _ Hn Hu Herr) in Hset.
    + injection Hset as <- <-.
      split; [reflexivity|]. split; [reflexivity|].
      apply lookup_insert_eq.
    + discriminate Hset.
  - exists []. rewrite <- ?app_assoc. cbn.
    split; [reflexivity|]. split; [auto|]. split; [reflexivity|].
    intros data' [=].
  - exists []. rewrite <- ?app_assoc. cbn.
    split; [reflexivity|]. split; [auto|]. split; [reflexivity|].
    intros data' _ [= <-] Hobj'. rewrite Hobj in Hobj'. discriminate.
  - exists []. rewrite <- ?app_assoc. cbn.
    split; [reflexivity|]. split; [auto|]. split; [reflexivity|].
    intros data' [=].
  - exists []. rewrite <- ?app_assoc. cbn.
    split; [reflexivity|]. split; [auto|]. split; [reflexivity|].
    intros data' _ [=].
Qed.

Lemma enter_invoke_not_open (t : Z) (b : CircuitBreaker) :
  fst (Breaker.enter t b) = Invoke -> state (snd (Breaker.enter t b)) <> OPEN.
Proof.
  unfold Breaker.enter, Breaker.is_open. cbn.
  destruct (state b) eqn:E; cbn; try congruence.
  destruct (t <? nextAttempt b); cbn; congruence.
Qed.

Lemma onSuccess_closes (t : Z) (b : CircuitBreaker) :
  state b <> OPEN -> state (Breaker.onSuccess t b) = CLOSED.
Proof.
  intros Hs. destruct (state b) eqn:E; [ |congruence| ].
  - apply (onSuccess_closed t b E).
  - apply (onSuccess_half_open t b E).
Qed.

(** C7.  [set] leaves the cache manager as it was when [response.error]
    is truthy; whatever operations ran on a cache, no lookup returns a
    response whose [error] is truthy; and when a forwarded request is
    answered by the backend with an error response, the same request made
    again is looked up, misses, and is forwarded again. *)
Theorem error_responses_are_never_cached :
  (forall (now : Z) (id : string) (req response : value) (cm : CacheManager),
      is_error_response response = true ->
      snd (Cache.set now id req response cm) = cm)
  /\ (forall (ops : list cache_op) (now : Z) (id : string) (req v : value),
        fst (Cache.get now id req (cache_run ops Cache.create)) = Return v ->
        is_error_response v = false)
  /\ (forall (w1 w2 : world) (id : string) (req : value) (p : ProxyManager)
             (data : value),
        accepted req = true ->
        fst (Cache.get (t_lookup w1) id req (cacheManager p)) = Return VNull ->
        fst (Breaker.enter (t_admit w1)
               (fst (BreakerManager.getBreaker (t_lookup w1) id
                       BreakerManager.no_options (circuitBreakerManager p))))
          = Invoke ->
        queue_timeout w1 = false -> upstream w1 = Return data ->
        JS.truthy data && JS.typeof_object data = true ->
        is_error_response data = true ->
        fst (Proxy.processRequest w1 id req p) = Return data
        /\ exists post,
             calls (snd (Proxy.processRequest w2 id req
                           (snd (Proxy.processRequest w1 id req p))))
             = calls (snd (Proxy.processRequest w1 id req p))
                 ++ [CacheGet id; BreakerGet id;
                     QueueAdd (Proxy.getPriority (field req "method"));
                     HttpPost (difyBaseUrl (config p) +:+ "/mcp/server/"
                                 +:+ id +:+ "/mcp")] ++ post).
Proof.
  split; [|split].
  - exact set_skips_error_response.
  - intros ops now id req v. apply get_returns_stored.
    apply run_keeps_error_free. unfold error_free. apply map_Forall_empty.
  - intros w1 w2 id req p data Hacc Hmiss Hadm Hq Hup Hobj Herr.
    destruct (processRequest_state w1 id req p) as (Hst1 & Hres1).
    destruct (forwarded_call w1 id req p _ Hacc Hmiss eq_refl Hadm)
      as (post1 & _ & _ & Hcfg & Hgood).
    destruct (Hgood data Hq Hup Hobj Herr) as (Hr & Hcm & Hbr).
    split; [apply Hres1, Hr|].
    rewrite Hst1.
    set (p1 := snd (Proxy.attempt w1 id req p)) in *.
    destruct (processRequest_state w2 id req p1) as (Hst2 & _).
    rewrite Hst2.
    set (b2 := Breaker.onSuccess (t_settle w1)
                 (snd (Breaker.enter (t_admit w1)
                         (fst (BreakerManager.getBreaker (t_lookup w1) id
                                 BreakerManager.no_options
                                 (circuitBreakerManager p)))))) in *.
    assert (state b2 = CLOSED) as Hclosed
      by (apply onSuccess_closes, enter_invoke_not_open, Hadm).
    destruct (forwarded_call w2 id req p1 b2 Hacc) as (post & Hcalls & _ & _).
    + rewrite Hcm. apply miss_is_stable, Hmiss.
    + unfold BreakerManager.getBreaker. rewrite Hbr. reflexivity.
    + apply enter_passes. congruence.
    + exists post. rewrite Hcalls, Hcfg. reflexivity.
Qed.

Lemma error_responses_are_never_cached_witness :
  snd (Cache.set 1000 "X" req_list reply_error Cache.create) = Cache.create
  /\ is_error_response reply_ok = false
  /\ (fst (Proxy.processRequest (world_of 1000 (Return reply_error)) "X"
             req_list proxy0) = Return reply_error
      /\ exists post,
           calls (snd (Proxy.processRequest (world_of 2000 (Return reply_ok)) "X"
                         req_list
                         (snd (Proxy.processRequest
                                 (world_of 1000 (Return reply_error)) "X"
                                 req_list proxy0))))
           = calls (snd (Proxy.processRequest
                           (world_of 1000 (Return reply_error)) "X"
                           req_list proxy0))
               ++ [CacheGet "X"; BreakerGet "X";
                   QueueAdd (Proxy.getPriority (field req_list "method"));
                   HttpPost (difyBaseUrl (config proxy0) +:+ "/mcp/server/"
                               +:+ "X" +:+ "/mcp")] ++ post).
Proof.
  split; [|split].
  - apply (proj1 error_responses_are_never_cached 1000 "X" req_list
             reply_error Cache.create).
    reflexivity.
  - apply (proj1 (proj2 error_responses_are_never_cached)
             [OpSet 1000 "X" req_list reply_ok] 1500 "X" req_list reply_ok).
    vm_compute. reflexivity.
  - apply (proj2 (proj2 error_responses_are_never_cached)
             (world_of 1000 (Return reply_error))
             (world_of 2000 (Return reply_ok)) "X" req_list proxy0 reply_error).
    + reflexivity.
    + reflexivity.
    + reflexivity.
    + reflexivity.
    + reflexivity.
    + reflexivity.
    + reflexivity.
Defined.

(** ** The retry policy *)

Section RetryFacts.

Variable isRetryAllowed : js_error -> bool.
Variable cfg : proxy_config.


Lemma network_error_has_no_response (e : js_error) :
  Retry.isNetworkError isRetryAllowed e = true -> err_response e = None.
Proof.
  unfold Retry.isNetworkError, Retry.has_response.
  destruct (err_response e); cbn; [discriminate | reflexivity].
Qed.


Lemma delay_capped (n : Z) : Retry.retryDelayFn cfg n <= maxRetryDelay cfg.
Proof. unfold Retry.retryDelayFn. apply Z.le_min_r. Qed.








End RetryFacts.




(** ** Replies that are not objects *)





(** ** Error envelopes and the request id *)

(** C10 (defect in the code).  The envelope built for a forwarding
    failure has no [id] member at all, although the request carries one:
    [handleProxyError] never passes an id to [createErrorResponse].  The
    request below has id 1 and meets a refused connection. *)
Theorem forwarding_failure_response_has_no_id :
  (forall (e : js_error) (id : string), own (handleProxyError e id) "id" = None)
  /\ field req_call "id" = VNum 1
  /\ exists resp,
       fst (Proxy.processRequest (world_of 1000 (Throw econnrefused)) "X"
              req_call proxy0) = Return resp
       /\ error_code resp = Some (-32001)
       /\ own resp "id" = None.
Proof.
  split; [exact handleProxyError_has_no_id|]. split; [reflexivity|].
  eexists. split; [vm_compute; reflexivity|]. split; reflexivity.
Qed.

(** ** More on the cache *)

Lemma key_total (id : string) (req : value) :
  req <> VNull -> req <> VUndefined ->
  exists suffix,
    Cache.generateCacheKey id req
      = Return (id +:+ ":" +:+ JS.to_String (field req "method") +:+ ":"
                +:+ suffix).
Proof.
  intros Hn Hu. unfold Cache.generateCacheKey.
  rewrite !(get_defined req _ Hn Hu). cbn.
  destruct (JS.truthy (field req "params")) eqn:Ht; cbn; [|eauto].
  destruct (truthy_stringifies _ Ht) as (s & ->). cbn. eauto.
Qed.

Lemma key_of_method_and_params (id : string) (r1 r2 : value) :
  r1 <> VNull -> r1 <> VUndefined -> r2 <> VNull -> r2 <> VUndefined ->
  field r1 "method" = field r2 "method" ->
  field r1 "params" = field r2 "params" ->
  Cache.generateCacheKey id r1 = Cache.generateCacheKey id r2.
Proof.
  intros Hn1 Hu1 Hn2 Hu2 Hm Hp. unfold Cache.generateCacheKey.
  rewrite !(get_defined r1 _ Hn1 Hu1), !(get_defined r2 _ Hn2 Hu2), Hm, Hp.
  reflexivity.
Qed.

Lemma shouldCache_ttl (m : value) :
  Cache.shouldCache m = true ->
  exists ttl, Cache.getCacheTTL m = Num ttl /\ 0 < ttl.
Proof.
  unfold Cache.shouldCache, Cache.getCacheTTL, index_or.
  destruct (index Cache.cacheTTL m) as [n| |]; try discriminate.
  intros H. apply Z.ltb_lt in H. exists n.
  destruct (Z.eqb_spec n 0); [lia|]. auto.
Qed.

Lemma set_then_get_roundtrip (t_set t_get : Z) (id : string)
    (req req' response : value) (cm : CacheManager) :
  req <> VNull -> req <> VUndefined -> req' <> VNull -> req' <> VUndefined ->
  field req' "method" = field req "method" ->
  field req' "params" = field req "params" ->
  Cache.shouldCache (field req "method") = true ->
  JS.truthy response = true -> is_error_response response = false ->
  Z.of_nat (size (cache cm)) < NodeCache.maxKeys ->
  t_get <= expiry_of t_set (field req "method") ->
  fst (Cache.set t_set id req response cm) = Return tt
  /\ sets (snd (Cache.set t_set id req response cm)) = sets cm + 1
  /\ fst (Cache.get t_get id req' (snd (Cache.set t_set id req response cm)))
     = Return response
  /\ hits (snd (Cache.get t_get id req'
                  (snd (Cache.set t_set id req response cm))))
     = hits cm + 1.
Proof.
  intros Hn Hu Hn' Hu' Hm Hp Hc Ht Herr Hsize Hexp.
  destruct (key_total id req Hn Hu) as (suffix & Hkey).
  pose proof (key_of_method_and_params id req' req Hn' Hu' Hn Hu Hm Hp) as Hkey'.
  unfold Cache.set, Cache.get.
  rewrite (get_defined req "method" Hn Hu), (get_defined req' "method" Hn' Hu').
  rewrite Hm, Hc, Hkey', Hkey. cbn [negb].
  assert (response <> VNull /\ response <> VUndefined) as (Hrn & Hru)
    by (split; intros ->; discriminate Ht).
  unfold is_error_response in Herr.
  rewrite (get_defined response "error" Hrn Hru) in Herr |- *. rewrite Herr.
  unfold NodeCache.set.
  destruct (Z.leb_spec NodeCache.maxKeys (Z.of_nat (size (cache cm)))); [lia|].
  cbn. unfold NodeCache.get. rewrite lookup_insert_eq.
  unfold NodeCache.expired. cbn [entry_t entry_v].
  fold (expiry_of t_set (field req "method")).
  destruct (Z.ltb_spec (expiry_of t_set (field req "method")) t_get); [lia|].
  rewrite andb_false_r, Ht. cbn. auto.
Qed.

(** X1.  What [set] stores, [get] returns until the entry expires: for a
    cacheable method, a truthy response without error and a cache that is
    not full, [set] succeeds, and a later [get] for any request with the
    same method and params, made no later than the expiry time, returns
    that response and counts a hit. *)
Theorem cache_set_then_get (t_set t_get : Z) (id : string)
    (req req' response : value) (cm : CacheManager) :
  req <> VNull -> req <> VUndefined -> req' <> VNull -> req' <> VUndefined ->
  field req' "method" = field req "method" ->
  field req' "params" = field req "params" ->
  Cache.shouldCache (field req "method") = true ->
  JS.truthy response = true -> is_error_response response = false ->
  Z.of_nat (size (cache cm)) < NodeCache.maxKeys ->
  t_get <= expiry_of t_set (field req "method") ->
  fst (Cache.set t_set id req response cm) = Return tt
  /\ sets (snd (Cache.set t_set id req response cm)) = sets cm + 1
  /\ fst (Cache.get t_get id req' (snd (Cache.set t_set id req response cm)))
     = Return response
  /\ hits (snd (Cache.get t_get id req'
                  (snd (Cache.set t_set id req response cm))))
     = hits cm + 1.
Proof.
  intros Hn Hu Hn' Hu' Hm Hp Hc Ht Herr Hsize Hexp.
  destruct (set_then_get_roundtrip t_set t_get id req req' response cm
              Hn Hu Hn' Hu' Hm Hp Hc Ht Herr Hsize Hexp)
    as (Hset & Hsets & Hget & Hhits).
  split; [exact Hset|]. split; [exact Hsets|].
  split; [exact Hget | exact Hhits].
Qed.

Lemma cache_set_then_get_witness :
  fst (Cache.get 2000 "X" (request "tools/list" (VObj []) (VNum 99))
         (snd (Cache.set 1000 "X" req_list reply_ok Cache.create)))
  = Return reply_ok.
Proof.
  apply (cache_set_then_get 1000 2000 "X" req_list
           (request "tools/list" (VObj []) (VNum 99)) reply_ok Cache.create).
  - discriminate.
  - discriminate.
  - discriminate.
  - discriminate.
  - reflexivity.
  - reflexivity.
  - reflexivity.
  - reflexivity.
  - reflexivity.
  - vm_compute. reflexivity.
  - vm_compute. discriminate.
Defined.

Lemma expiry_positive (now : Z) (m : value) :
  Cache.shouldCache m = true -> 0 <= now ->
  0 < expiry_of now m /\ now < expiry_of now m.
Proof.
  intros Hc Hnow. destruct (shouldCache_ttl m Hc) as (ttl & Httl & Hpos).
  unfold expiry_of, NodeCache.livetime. rewrite Httl.
  destruct (Z.eqb_spec ttl 0); lia.
Qed.

(** X2.  An entry is not served after its expiry time: the first [get]
    made later than that answers [null], counts a miss and deletes the
    entry. *)
Theorem cache_entry_expires (t_set t_get : Z) (id : string)
    (req response : value) (cm : CacheManager) :
  req <> VNull -> req <> VUndefined ->
  Cache.shouldCache (field req "method") = true ->
  JS.truthy response = true -> is_error_response response = false ->
  Z.of_nat (size (cache cm)) < NodeCache.maxKeys ->
  0 <= t_set -> expiry_of t_set (field req "method") < t_get ->
  exists key,
    Cache.generateCacheKey id req = Return key
    /\ cache (snd (Cache.set t_set id req response cm)) !! key
       = Some (mk_entry response (expiry_of t_set (field req "method")))
    /\ fst (Cache.get t_get id req (snd (Cache.set t_set id req response cm)))
       = Return VNull
    /\ misses (snd (Cache.get t_get id req
                      (snd (Cache.set t_set id req response cm))))
       = misses cm + 1
    /\ cache (snd (Cache.get t_get id req
                     (snd (Cache.set t_set id req response cm)))) !! key
       = None.
Proof.
  intros Hn Hu Hc Ht Herr Hsize Hnow Hexp.
  destruct (key_total id req Hn Hu) as (suffix & Hkey).
  destruct (expiry_positive t_set _ Hc Hnow) as (Hpos & _).
  eexists. split; [exact Hkey|].
  unfold Cache.set, Cache.get.
  rewrite (get_defined req "method" Hn Hu), Hc, Hkey. cbn [negb].
  assert (response <> VNull /\ response <> VUndefined) as (Hrn & Hru)
    by (split; intros ->; discriminate Ht).
  unfold is_error_response in Herr.
  rewrite (get_defined response "error" Hrn Hru) in Herr |- *. rewrite Herr.
  unfold NodeCache.set.
  destruct (Z.leb_spec NodeCache.maxKeys (Z.of_nat (size (cache cm)))); [lia|].
  cbn. unfold NodeCache.get. rewrite lookup_insert_eq.
  unfold NodeCache.expired. cbn [entry_t entry_v].
  fold (expiry_of t_set (field req "method")).
  destruct (Z.ltb_spec (expiry_of t_set (field req "method")) t_get); [|lia].
  destruct (Z.eqb_spec (expiry_of t_set (field req "method")) 0); [lia|].
  cbn. rewrite lookup_delete_eq. auto.
Qed.

Lemma cache_entry_expires_witness :
  exists key,
    Cache.generateCacheKey "X" req_list = Return key
    /\ cache (snd (Cache.set 1000 "X" req_list reply_ok Cache.create)) !! key
       = Some (mk_entry reply_ok (expiry_of 1000 (field req_list "method")))
    /\ fst (Cache.get 301001 "X" req_list
              (snd (Cache.set 1000 "X" req_list reply_ok Cache.create)))
       = Return VNull
    /\ misses (snd (Cache.get 301001 "X" req_list
                      (snd (Cache.set 1000 "X" req_list reply_ok Cache.create))))
       = misses Cache.create + 1
    /\ cache (snd (Cache.get 301001 "X" req_list
                     (snd (Cache.set 1000 "X" req_list reply_ok Cache.create))))
         !! key
       = None.
Proof.
  apply (cache_entry_expires 1000 301001 "X" req_list reply_ok Cache.create).
  - discriminate.
  - discriminate.
  - reflexivity.
  - reflexivity.
  - reflexivity.
  - vm_compute. reflexivity.
  - vm_compute. discriminate.
  - vm_compute. reflexivity.
Defined.

Lemma shouldCache_string (s : string) :
  Cache.shouldCache (VStr s) = true <-> s = "initialize" \/ s = "tools/list".
Proof.
  unfold Cache.shouldCache, index, Cache.cacheTTL. cbn [JS.to_String table_get].
  destruct (String.eqb_spec s "initialize") as [->|H1]; [cbn; tauto|].
  destruct (String.eqb_spec s "tools/list") as [->|H2]; [cbn; tauto|].
  destruct (String.eqb_spec s "tools/call") as [->|H3].
  - cbn. split; [discriminate | intros [H|H]; discriminate H].
  - destruct (existsb (String.eqb s) object_prototype);
      (split; [discriminate | intros [H|H]; congruence]).
Qed.

(** X3.  Only the methods [initialize] and [tools/list] are cached: for
    every other method name ([tools/call] and unknown names alike) [get]
    answers [null] and [set] returns, and neither changes the cache
    manager, its counters included. *)
Theorem uncacheable_methods_bypass_cache (now : Z) (id : string)
    (req response : value) (s : string) (cm : CacheManager) :
  JS.get req "method" = Return (VStr s) ->
  s <> "initialize" -> s <> "tools/list" ->
  Cache.get now id req cm = (Return VNull, cm)
  /\ Cache.set now id req response cm = (Return tt, cm).
Proof.
  intros Hm H1 H2.
  assert (Cache.shouldCache (VStr s) = false) as Hc.
  { destruct (Cache.shouldCache (VStr s)) eqn:E; [|reflexivity].
    apply shouldCache_string in E. tauto. }
  unfold Cache.get, Cache.set. rewrite Hm, Hc. split; reflexivity.
Qed.

Lemma uncacheable_methods_bypass_cache_witness :
  Cache.get 1000 "X" req_call full_cache = (Return VNull, full_cache)
  /\ Cache.set 1000 "X" req_call reply_ok full_cache = (Return tt, full_cache).
Proof.
  apply (uncacheable_methods_bypass_cache 1000 "X" req_call reply_ok
           "tools/call" full_cache).
  - reflexivity.
  - discriminate.
  - discriminate.
Defined.

Lemma set_throws_when_full (now : Z) (id : string) (req response : value)
    (cm : CacheManager) :
  req <> VNull -> req <> VUndefined ->
  Cache.shouldCache (field req "method") = true ->
  response <> VNull -> response <> VUndefined ->
  is_error_response response = false ->
  NodeCache.maxKeys <= Z.of_nat (size (cache cm)) ->
  Cache.set now id req response cm = (Throw NodeCache.cache_full, cm).
Proof.
  intros Hn Hu Hc Hrn Hru Herr Hfull.
  destruct (key_total id req Hn Hu) as (suffix & Hkey).
  unfold Cache.set.
  rewrite (get_defined req "method" Hn Hu), Hc, Hkey. cbn [negb].
  unfold is_error_response in Herr.
  rewrite (get_defined response "error" Hrn Hru) in Herr |- *. rewrite Herr.
  unfold NodeCache.set.
  destruct (Z.leb_spec NodeCache.maxKeys (Z.of_nat (size (cache cm)))); [|lia].
  reflexivity.
Qed.

(** X4.  Once the cache holds [maxKeys] (1000) entries, storing a
    cacheable, error-free response throws the ECACHEFULL error of
    node-cache, for a key already present as well, and the cache manager
    stays as it was. *)
Theorem full_cache_rejects_store (now : Z) (id : string) (req response : value)
    (cm : CacheManager) :
  req <> VNull -> req <> VUndefined ->
  Cache.shouldCache (field req "method") = true ->
  response <> VNull -> response <> VUndefined ->
  is_error_response response = false ->
  NodeCache.maxKeys <= Z.of_nat (size (cache cm)) ->
  Cache.set now id req response cm = (Throw NodeCache.cache_full, cm).
Proof.
  intros Hn Hu Hc Hrn Hru Herr Hfull.
  rewrite (set_throws_when_full now id req response cm Hn Hu Hc Hrn Hru Herr
             Hfull).
  reflexivity.
Qed.

Lemma full_cache_rejects_store_witness :
  Cache.set 1000 "X" req_list reply_ok full_cache
  = (Throw NodeCache.cache_full, full_cache).
Proof.
  apply (full_cache_rejects_store 1000 "X" req_list reply_ok full_cache).
  - discriminate.
  - discriminate.
  - reflexivity.
  - discriminate.
  - discriminate.
  - reflexivity.
  - vm_compute. discriminate.
Defined.





(** X6.  Every lookup for a cacheable method counts exactly once: a
    value other than [null] comes with one more hit, [null] with one more
    miss, and [get] never changes the number of sets. *)
Theorem get_counts_hit_or_miss (now : Z) (id : string) (req : value)
    (cm : CacheManager) :
  req <> VNull -> req <> VUndefined ->
  Cache.shouldCache (field req "method") = true ->
  exists v,
    fst (Cache.get now id req cm) = Return v
    /\ sets (snd (Cache.get now id req cm)) = sets cm
    /\ ((v <> VNull
         /\ hits (snd (Cache.get now id req cm)) = hits cm + 1
         /\ misses (snd (Cache.get now id req cm)) = misses cm)
        \/ (v = VNull
            /\ hits (snd (Cache.get now id req cm)) = hits cm
            /\ misses (snd (Cache.get now id req cm)) = misses cm + 1)).
Proof.
  intros Hn Hu Hc.
  destruct (key_total id req Hn Hu) as (suffix & Hkey).
  unfold Cache.get. rewrite (get_defined req "method" Hn Hu), Hc, Hkey.
  cbn [negb].
  destruct (NodeCache.get now _ (cache cm)) as [cached data].
  destruct (JS.truthy cached) eqn:Ht; cbn; eexists; split; try reflexivity.
  - split; [reflexivity|]. left. split; [|auto].
    intros ->. discriminate Ht.
  - split; [reflexivity|]. right. auto.
Qed.

Lemma get_counts_hit_or_miss_witness :
  exists v,
    fst (Cache.get 1000 "X" req_list Cache.create) = Return v
    /\ sets (snd (Cache.get 1000 "X" req_list Cache.create)) = sets Cache.create
    /\ ((v <> VNull
         /\ hits (snd (Cache.get 1000 "X" req_list Cache.create))
            = hits Cache.create + 1
         /\ misses (snd (Cache.get 1000 "X" req_list Cache.create))
            = misses Cache.create)
        \/ (v = VNull
            /\ hits (snd (Cache.get 1000 "X" req_list Cache.create))
               = hits Cache.create
            /\ misses (snd (Cache.get 1000 "X" req_list Cache.create))
               = misses Cache.create + 1)).
Proof.
  apply (get_counts_hit_or_miss 1000 "X" req_list Cache.create).
  - discriminate.
  - discriminate.
  - reflexivity.
Defined.

(** ** More on the circuit breaker *)

(** X7.  [canExecute] tells what [execute] will do: it is true exactly
    when a call made at that time is passed to the protected function. *)
Theorem canExecute_agrees_with_execute (now : Z) (b : CircuitBreaker) :
  Breaker.canExecute now b = true <-> fst (Breaker.enter now b) = Invoke.
Proof.
  unfold Breaker.canExecute, Breaker.enter, Breaker.is_open. cbn.
  destruct (state b) eqn:E; cbn; try tauto.
  destruct (Z.ltb_spec now (nextAttempt b)), (Z.leb_spec (nextAttempt b) now);
    cbn; try lia; split; congruence.
Qed.

(** X8.  A call refused by an open breaker changes nothing but the
    request count: state, failure count, [nextAttempt], last failure time
    and the other statistics stay as they were, so refusals neither count
    as failures nor extend the open period. *)
Theorem refused_call_only_counts (t t' : Z) (fn : completion value)
    (b : CircuitBreaker) :
  state b = OPEN -> t < nextAttempt b ->
  snd (Breaker.execute t t' fn b)
  = mk_breaker (serverId b) (failureThreshold b) (recoveryTimeout b)
      (monitoringPeriod b) OPEN (failureCount b) (successCount b)
      (nextAttempt b) (lastFailureTime b)
      (mk_breaker_stats (totalRequests (stats b) + 1) (totalFailures (stats b))
         (totalSuccesses (stats b)) (circuitBreakerTrips (stats b))).
Proof.
  intros Hs Hlt. unfold Breaker.execute, Breaker.enter, Breaker.is_open. cbn.
  rewrite Hs. destruct (Z.ltb_spec t (nextAttempt b)); [|lia]. cbn.
  unfold Breaker.with_stats. rewrite Hs. reflexivity.
Qed.

Lemma refused_call_only_counts_witness :
  snd (Breaker.execute 2000 2020 (Return reply_ok) breaker_open_sample)
  = mk_breaker "X" 5 30000 60000 OPEN 5 0 31000 (Some 1000)
      (mk_breaker_stats 6 5 0 1).
Proof.
  apply (refused_call_only_counts 2000 2020 (Return reply_ok)
           breaker_open_sample).
  - reflexivity.
  - reflexivity.
Defined.

(** X9.  The state machine of a breaker: HALF_OPEN is entered only from
    OPEN, by a call arriving once [nextAttempt] is reached; CLOSED is
    entered only by a success in HALF_OPEN or by a reset; OPEN is entered
    only by a failure, which then sets [nextAttempt] to that time plus
    [recoveryTimeout]. *)
Theorem breaker_transitions (op : breaker_op) (b : CircuitBreaker) :
  (state (breaker_step b op) = HALF_OPEN ->
     state b = HALF_OPEN
     \/ (state b = OPEN /\ exists now, op = BEnter now /\ nextAttempt b <= now))
  /\ (state (breaker_step b op) = CLOSED ->
        state b = CLOSED
        \/ (state b = HALF_OPEN /\ exists now, op = BSuccess now)
        \/ exists now, op = BReset now)
  /\ (state (breaker_step b op) = OPEN ->
        state b = OPEN
        \/ exists now,
             op = BFailure now
             /\ nextAttempt (breaker_step b op) = now + recoveryTimeout b).
Proof.
  destruct op as [now|now|now|now]; cbn.
  - unfold Breaker.enter, Breaker.is_open. cbn.
    destruct (state b) eqn:E; cbn; rewrite ?E.
    + repeat split; intros; try discriminate; auto.
    + destruct (Z.ltb_spec now (nextAttempt b)); cbn; rewrite ?E;
        repeat split; intros; try discriminate; eauto.
    + repeat split; intros; try discriminate; auto.
  - unfold Breaker.onSuccess, Breaker.is_half_open, Breaker.is_closed. cbn.
    destruct (state b) eqn:E; cbn; rewrite ?E;
      repeat split; intros; try discriminate; eauto.
  - unfold Breaker.onFailure, Breaker.is_half_open, Breaker.is_closed. cbn.
    destruct (state b) eqn:E; cbn; rewrite ?E.
    + destruct (failureThreshold b <=? failureCount b + 1); cbn; rewrite ?E;
        repeat split; intros; try discriminate; eauto.
    + repeat split; intros; try discriminate; auto.
    + repeat split; intros; try discriminate; eauto.
  - repeat split; intros; try discriminate; eauto.
Qed.

Lemma breaker_transitions_witness :
  state breaker_open_sample = OPEN
  \/ exists now,
       BFailure 40000 = BFailure now
       /\ nextAttempt (breaker_step breaker_half_open_sample (BFailure 40000))
          = now + recoveryTimeout breaker_half_open_sample.
Proof.
  destruct (proj2 (proj2 (breaker_transitions (BFailure 40000)
                            breaker_half_open_sample)) eq_refl) as [H|H].
  - discriminate H.
  - right. exact H.
Defined.

Lemma step_keeps_counters (op : breaker_op) (b : CircuitBreaker) :
  counters_ok b -> counters_ok (breaker_step b op).
Proof.
  unfold counters_ok. intros H. destruct op as [now|now|now|now]; cbn.
  - unfold Breaker.enter, Breaker.is_open. cbn.
    destruct (state b); cbn; try lia.
    destruct (now <? nextAttempt b); cbn; lia.
  - unfold Breaker.onSuccess, Breaker.is_half_open, Breaker.is_closed. cbn.
    destruct (state b); cbn; lia.
  - unfold Breaker.onFailure, Breaker.is_half_open, Breaker.is_closed. cbn.
    destruct (state b); cbn;
      try destruct (failureThreshold b <=? failureCount b + 1); cbn; lia.
  - lia.
Qed.

Lemma step_keeps_settings (op : breaker_op) (b : CircuitBreaker) :
  (serverId (breaker_step b op), failureThreshold (breaker_step b op),
   recoveryTimeout (breaker_step b op), monitoringPeriod (breaker_step b op))
  = (serverId b, failureThreshold b, recoveryTimeout b, monitoringPeriod b).
Proof.
  destruct op as [now|now|now|now]; cbn.
  - unfold Breaker.enter, Breaker.is_open. cbn.
    destruct (state b); cbn; try reflexivity.
    destruct (now <? nextAttempt b); reflexivity.
  - unfold Breaker.onSuccess, Breaker.is_half_open, Breaker.is_closed. cbn.
    destruct (state b); reflexivity.
  - unfold Breaker.onFailure, Breaker.is_half_open, Breaker.is_closed. cbn.
    destruct (state b); cbn;
      try destruct (failureThreshold b <=? failureCount b + 1); reflexivity.
  - reflexivity.
Qed.

(** X10.  Whatever calls, outcomes and resets a breaker sees after its
    construction, in whatever order, its settings never change and its
    counters stay consistent: [failureCount] lies between 0 and the total
    of failures, [successCount] between 0 and the total of successes, and
    the breaker has tripped at most as often as it has failed. *)
Theorem breaker_counters_consistent (ops : list breaker_op) (now : Z)
    (id : string) (options : breaker_options) :
  counters_ok (breaker_run ops (Breaker.create now id options))
  /\ (serverId (breaker_run ops (Breaker.create now id options)),
      failureThreshold (breaker_run ops (Breaker.create now id options)),
      recoveryTimeout (breaker_run ops (Breaker.create now id options)))
     = (id, failureThreshold (Breaker.create now id options),
        recoveryTimeout (Breaker.create now id options)).
Proof.
  assert (forall b, counters_ok b ->
            counters_ok (breaker_run ops b)
            /\ (serverId (breaker_run ops b), failureThreshold (breaker_run ops b),
                recoveryTimeout (breaker_run ops b))
               = (serverId b, failureThreshold b, recoveryTimeout b)) as Hgen.
  { induction ops as [|op ops IH]; intros b Hb; [split; [exact Hb | reflexivity]|].
    change (breaker_run (op :: ops) b) with (breaker_run ops (breaker_step b op)).
    destruct (IH (breaker_step b op) (step_keeps_counters op b Hb))
      as (H1 & H2).
    split; [exact H1|]. rewrite H2.
    pose proof (step_keeps_settings op b) as Hs.
    injection Hs as -> -> -> _. reflexivity. }
  apply Hgen. unfold counters_ok. cbn. lia.
Qed.

(** ** The breaker registry *)

(** X11.  [resetAll] closes every breaker and creates or drops none:
    each registered breaker comes out CLOSED with both counters at zero
    and [nextAttempt] at the time of the reset, keeping its settings and
    its statistics; an id without a breaker still has none. *)
Theorem resetAll_closes_every_breaker (now : Z) (id : string)
    (m : CircuitBreakerManager) :
  match breakers m !! id with
  | Some b =>
      breakers (BreakerManager.resetAll now m) !! id
      = Some (mk_breaker (serverId b) (failureThreshold b) (recoveryTimeout b)
                (monitoringPeriod b) CLOSED 0 0 now (lastFailureTime b)
                (stats b))
  | None => breakers (BreakerManager.resetAll now m) !! id = None
  end.
Proof.
  unfold BreakerManager.resetAll. cbn. rewrite lookup_fmap.
  destruct (breakers m !! id) as [b|]; reflexivity.
Qed.

(** X12.  [getBreaker] creates the breaker of a backend on first use
    only, CLOSED and with no failure counted; asking again returns that
    same breaker and leaves the registry alone; and the breakers of all
    other backends are never touched. *)
Theorem getBreaker_creates_once (t1 t2 : Z) (id other : string)
    (o1 o2 : breaker_options) (m : CircuitBreakerManager) :
  (breakers m !! id = None ->
     state (fst (BreakerManager.getBreaker t1 id o1 m)) = CLOSED
     /\ failureCount (fst (BreakerManager.getBreaker t1 id o1 m)) = 0
     /\ serverId (fst (BreakerManager.getBreaker t1 id o1 m)) = id)
  /\ breakers (snd (BreakerManager.getBreaker t1 id o1 m)) !! id
     = Some (fst (BreakerManager.getBreaker t1 id o1 m))
  /\ BreakerManager.getBreaker t2 id o2 (snd (BreakerManager.getBreaker t1 id o1 m))
     = (fst (BreakerManager.getBreaker t1 id o1 m),
        snd (BreakerManager.getBreaker t1 id o1 m))
  /\ (other <> id ->
      breakers (snd (BreakerManager.getBreaker t1 id o1 m)) !! other
      = breakers m !! other).
Proof.
  unfold BreakerManager.getBreaker.
  destruct (breakers m !! id) as [b|] eqn:E; cbn.
  - split; [discriminate|]. split; [exact E|]. rewrite E. auto.
  - split; [auto|]. rewrite lookup_insert_eq. split; [reflexivity|].
    split; [reflexivity|]. intros Hne. apply lookup_insert_ne. congruence.
Qed.

Lemma getBreaker_creates_once_witness :
  state (fst (BreakerManager.getBreaker 1000 "X" BreakerManager.no_options
                (circuitBreakerManager proxy0))) = CLOSED
  /\ failureCount (fst (BreakerManager.getBreaker 1000 "X"
                          BreakerManager.no_options
                          (circuitBreakerManager proxy0))) = 0
  /\ serverId (fst (BreakerManager.getBreaker 1000 "X"
                      BreakerManager.no_options
                      (circuitBreakerManager proxy0))) = "X".
Proof.
  apply (proj1 (getBreaker_creates_once 1000 2000 "X" "Y"
                  BreakerManager.no_options BreakerManager.no_options
                  (circuitBreakerManager proxy0))).
  reflexivity.
Defined.

Lemma count_fold (m : gmap string CircuitBreaker) (init : manager_stats) :
  totalBreakers (map_fold (fun _ b s => Registry.count b s) init m)
    = totalBreakers init
  /\ openBreakers (map_fold (fun _ b s => Registry.count b s) init m)
     = openBreakers init + breakers_in OPEN m
  /\ halfOpenBreakers (map_fold (fun _ b s => Registry.count b s) init m)
     = halfOpenBreakers init + breakers_in HALF_OPEN m
  /\ closedBreakers (map_fold (fun _ b s => Registry.count b s) init m)
     = closedBreakers init + breakers_in CLOSED m
  /\ openBreakers (map_fold (fun _ b s => Registry.count b s) init m)
     + halfOpenBreakers (map_fold (fun _ b s => Registry.count b s) init m)
     + closedBreakers (map_fold (fun _ b s => Registry.count b s) init m)
     = openBreakers init + halfOpenBreakers init + closedBreakers init
       + Z.of_nat (size m).
Proof.
  apply (map_fold_weak_ind
           (fun r m =>
              totalBreakers r = totalBreakers init
              /\ openBreakers r = openBreakers init + breakers_in OPEN m
              /\ halfOpenBreakers r
                 = halfOpenBreakers init + breakers_in HALF_OPEN m
              /\ closedBreakers r = closedBreakers init + breakers_in CLOSED m
              /\ openBreakers r + halfOpenBreakers r + closedBreakers r
                 = openBreakers init + halfOpenBreakers init
                   + closedBreakers init + Z.of_nat (size m))).
  - unfold breakers_in. rewrite !map_filter_empty, !map_size_empty. cbn. lia.
  - intros i b m' r Hi (H1 & H2 & H3 & H4 & H5).
    assert (forall s,
              breakers_in s (<[i:=b]> m')
              = breakers_in s m' + (if decide (state b = s) then 1 else 0))
      as Hin.
    { intros s. unfold breakers_in. destruct (decide (state b = s)) as [Hs|Hs].
      - rewrite map_filter_insert_True by exact Hs.
        rewrite map_size_insert_None; [lia|].
        apply map_lookup_filter_None. left. exact Hi.
      - rewrite map_filter_insert_False by exact Hs.
        rewrite delete_id by exact Hi. lia. }
    rewrite !Hin, (map_size_insert_None i b m' Hi).
    unfold Registry.count.
    destruct (state b); cbn; repeat case_decide; try congruence; lia.
Qed.

(** X13.  The statistics of the registry add up: [getStats] reports as
    open, half-open and closed exactly the breakers that are in that
    state, and the three numbers sum to [totalBreakers], the size of the
    registry. *)
Theorem getStats_partitions_breakers (m : CircuitBreakerManager) :
  totalBreakers (Registry.getStats m) = Z.of_nat (size (breakers m))
  /\ openBreakers (Registry.getStats m) = breakers_in OPEN (breakers m)
  /\ halfOpenBreakers (Registry.getStats m) = breakers_in HALF_OPEN (breakers m)
  /\ closedBreakers (Registry.getStats m) = breakers_in CLOSED (breakers m)
  /\ openBreakers (Registry.getStats m) + halfOpenBreakers (Registry.getStats m)
     + closedBreakers (Registry.getStats m)
     = totalBreakers (Registry.getStats m).
Proof.
  unfold Registry.getStats.
  destruct (count_fold (breakers m)
              (mk_manager_stats (Z.of_nat (size (breakers m))) 0 0 0 0))
    as (H1 & H2 & H3 & H4 & H5).
  cbn in *. rewrite H1, H2, H3, H4. repeat split; lia.
Qed.

(** ** More on the entry point *)

Lemma attempt_leaves_other_breakers (w : world) (id other : string)
    (req : value) (p : ProxyManager) :
  other <> id ->
  breakers (circuitBreakerManager (snd (Proxy.attempt w id req p))) !! other
  = breakers (circuitBreakerManager p) !! other.
Proof.
  intros Hne.
  unfold Proxy.attempt, Proxy.dispatch, Proxy.forwardRequest,
    BreakerManager.getBreaker, Breaker.settle.
  repeat case_match; simplify_eq; cbn;
    rewrite ?lookup_insert_ne by congruence; reflexivity.
Qed.

(** X14.  Backends are isolated: handling a request for one backend
    never creates, changes or removes the circuit breaker of another. *)
Theorem backends_are_isolated (w : world) (id other : string) (req : value)
    (p : ProxyManager) :
  other <> id ->
  breakers (circuitBreakerManager (snd (Proxy.processRequest w id req p)))
    !! other
  = breakers (circuitBreakerManager p) !! other.
Proof.
  intros Hne. destruct (processRequest_state w id req p) as (-> & _).
  apply attempt_leaves_other_breakers, Hne.
Qed.

Lemma backends_are_isolated_witness :
  breakers (circuitBreakerManager
              (snd (Proxy.processRequest (world_of 40000 (Throw econnrefused))
                      "Y" req_call proxy_open_sample))) !! "X"
  = breakers (circuitBreakerManager proxy_open_sample) !! "X".
Proof.
  apply (backends_are_isolated (world_of 40000 (Throw econnrefused)) "Y" "X"
           req_call proxy_open_sample).
  discriminate.
Defined.

Lemma attempt_calls (w : world) (id : string) (req : value) (p : ProxyManager) :
  exists evs,
    calls (snd (Proxy.attempt w id req p)) = calls p ++ evs
    /\ (length (List.filter is_http evs) <= 1)%nat
    /\ config (snd (Proxy.attempt w id req p)) = config p.
Proof.
  unfold Proxy.attempt, Proxy.dispatch, Proxy.forwardRequest,
    BreakerManager.getBreaker, Breaker.settle.
  repeat case_match; simplify_eq; cbn; rewrite <- ?app_assoc; cbn;
    try (exists []; rewrite app_nil_r; cbn; split; [reflexivity|split; [lia|reflexivity]]);
    (eexists; split; [reflexivity|]; cbn; split; [lia|reflexivity]).
Qed.

(** X15.  One request makes at most one call to the network, whatever
    its outcome, and never changes the configuration; everything it asks
    of cache, registry, queue and network is appended to the record of
    calls. *)
Theorem at_most_one_network_call (w : world) (id : string) (req : value)
    (p : ProxyManager) :
  exists evs,
    calls (snd (Proxy.processRequest w id req p)) = calls p ++ evs
    /\ (length (List.filter is_http evs) <= 1)%nat
    /\ config (snd (Proxy.processRequest w id req p)) = config p.
Proof.
  destruct (processRequest_state w id req p) as (-> & _).
  apply attempt_calls.
Qed.

Lemma reply_call (w : world) (id : string) (req : value)
    (p : ProxyManager) (b : CircuitBreaker) (data : value) :
  accepted req = true ->
  fst (Cache.get (t_lookup w) id req (cacheManager p)) = Return VNull ->
  fst (BreakerManager.getBreaker (t_lookup w) id BreakerManager.no_options
         (circuitBreakerManager p)) = b ->
  fst (Breaker.enter (t_admit w) b) = Invoke ->
  queue_timeout w = false -> upstream w = Return data ->
  JS.truthy data && JS.typeof_object data = true ->
  fst (Proxy.attempt w id req p)
  = match fst (Cache.set (t_store w) id req data
                 (snd (Cache.get (t_lookup w) id req (cacheManager p)))) with
    | Return _ => Return data
    | Throw e => Throw e
    end
  /\ cacheManager (snd (Proxy.attempt w id req p))
     = snd (Cache.set (t_store w) id req data
              (snd (Cache.get (t_lookup w) id req (cacheManager p))))
  /\ breakers (circuitBreakerManager (snd (Proxy.attempt w id req p))) !! id
     = Some (Breaker.onSuccess (t_settle w) (snd (Breaker.enter (t_admit w) b)))
  /\ http_calls (snd (Proxy.attempt w id req p))
     = http_calls p
         ++ [HttpPost (difyBaseUrl (config p) +:+ "/mcp/server/" +:+ id
                         +:+ "/mcp")].
Proof.
  intros Hacc Hmiss Hb Hadm Hq Hup Hobj.
  destruct (accepted_is_value req Hacc) as (Hn & Hu).
  destruct (accepted_valid req Hacc) as (v & Hv & Ht).
  unfold Proxy.attempt, http_calls.
  rewrite Hv, Ht. cbn [negb].
  cbn [cacheManager Proxy.record].
  destruct (Cache.get (t_lookup w) id req (cacheManager p)) as [[c|e] cm];
    cbn in Hmiss; [|discriminate]. injection Hmiss as ->.
  cbn [JS.truthy snd].
  cbn [circuitBreakerManager Proxy.record Proxy.with_cache].
  destruct (BreakerManager.getBreaker (t_lookup w) id BreakerManager.no_options
              (circuitBreakerManager p)) as [b' m]. cbn in Hb. subst b'.
  rewrite (get_defined req "method" Hn Hu).
  unfold Proxy.dispatch.
  destruct (Breaker.enter (t_admit w) b) as [a b1]. cbn in Hadm. subst a.
  unfold Proxy.forwardRequest.
  rewrite (get_defined req "method" Hn Hu), Hup, Hobj, Hq. cbn.
  destruct (Cache.set (t_store w) id req data cm) as [[u|e] cm']; cbn;
    rewrite <- ?app_assoc, !List.filter_app; cbn; rewrite ?app_nil_r;
    (split; [reflexivity|]); (split; [reflexivity|]);
    (split; [apply lookup_insert_eq | reflexivity]).
Qed.

Lemma failure_call (w : world) (id : string) (req : value)
    (p : ProxyManager) (b : CircuitBreaker) (e : js_error) :
  accepted req = true ->
  fst (Cache.get (t_lookup w) id req (cacheManager p)) = Return VNull ->
  fst (BreakerManager.getBreaker (t_lookup w) id BreakerManager.no_options
         (circuitBreakerManager p)) = b ->
  fst (Breaker.enter (t_admit w) b) = Invoke ->
  queue_timeout w = false -> upstream w = Throw e ->
  fst (Proxy.attempt w id req p) = Throw e
  /\ cacheManager (snd (Proxy.attempt w id req p))
     = snd (Cache.get (t_lookup w) id req (cacheManager p))
  /\ breakers (circuitBreakerManager (snd (Proxy.attempt w id req p))) !! id
     = Some (Breaker.onFailure (t_settle w) (snd (Breaker.enter (t_admit w) b)))
  /\ http_calls (snd (Proxy.attempt w id req p))
     = http_calls p
         ++ [HttpPost (difyBaseUrl (config p) +:+ "/mcp/server/" +:+ id
                         +:+ "/mcp")].
Proof.
  intros Hacc Hmiss Hb Hadm Hq Hup.
  destruct (accepted_is_value req Hacc) as (Hn & Hu).
  destruct (accepted_valid req Hacc) as (v & Hv & Ht).
  unfold Proxy.attempt, http_calls.
  rewrite Hv, Ht. cbn [negb].
  cbn [cacheManager Proxy.record].
  destruct (Cache.get (t_lookup w) id req (cacheManager p)) as [[c|e'] cm];
    cbn in Hmiss; [|discriminate]. injection Hmiss as ->.
  cbn [JS.truthy snd].
  cbn [circuitBreakerManager Proxy.record Proxy.with_cache].
  destruct (BreakerManager.getBreaker (t_lookup w) id BreakerManager.no_options
              (circuitBreakerManager p)) as [b' m]. cbn in Hb. subst b'.
  rewrite (get_defined req "method" Hn Hu).
  unfold Proxy.dispatch.
  destruct (Breaker.enter (t_admit w) b) as [a b1]. cbn in Hadm. subst a.
  unfold Proxy.forwardRequest.
  rewrite (get_defined req "method" Hn Hu), Hup, Hq. cbn.
  rewrite <- ?app_assoc, !List.filter_app. cbn. rewrite ?app_nil_r.
  split; [reflexivity|]. split; [reflexivity|].
  split; [apply lookup_insert_eq | reflexivity].
Qed.

Lemma hit_call (w : world) (id : string) (req cached : value)
    (p : ProxyManager) :
  accepted req = true ->
  fst (Cache.get (t_lookup w) id req (cacheManager p)) = Return cached ->
  JS.truthy cached = true ->
  Proxy.processRequest w id req p
  = (Return cached,
     mk_proxy (config p)
       (snd (Cache.get (t_lookup w) id req (cacheManager p)))
       (circuitBreakerManager p) (calls p ++ [CacheGet id])).
Proof.
  intros Hacc Hhit Ht.
  destruct (accepted_valid req Hacc) as (v & Hv & Htv).
  unfold Proxy.processRequest, Proxy.attempt.
  rewrite Hv, Htv. cbn [negb]. cbn [cacheManager Proxy.record].
  destruct (Cache.get (t_lookup w) id req (cacheManager p)) as [[c|e] cm];
    cbn in Hhit; [|discriminate]. injection Hhit as ->.
  rewrite Ht. reflexivity.
Qed.

(** X16.  A cache hit is answered from the cache alone: the stored
    response is returned as it is, the cache counts the hit, and neither
    the breaker registry, nor the queue, nor the network is asked. *)
Theorem cache_hit_is_served_from_cache (w : world) (id : string)
    (req cached : value) (p : ProxyManager) :
  accepted req = true ->
  fst (Cache.get (t_lookup w) id req (cacheManager p)) = Return cached ->
  JS.truthy cached = true ->
  fst (Proxy.processRequest w id req p) = Return cached
  /\ calls (snd (Proxy.processRequest w id req p)) = calls p ++ [CacheGet id]
  /\ circuitBreakerManager (snd (Proxy.processRequest w id req p))
     = circuitBreakerManager p
  /\ cacheManager (snd (Proxy.processRequest w id req p))
     = snd (Cache.get (t_lookup w) id req (cacheManager p)).
Proof.
  intros Hacc Hhit Ht. rewrite (hit_call w id req cached p Hacc Hhit Ht).
  cbn. auto.
Qed.

(** X17.  A reply is cached for the requests that follow: when a
    forwarded request with a cacheable method is answered by an object
    without error and the cache is not full, the same response is returned
    to every later request with the same method and params (whatever its
    id) that arrives no later than the expiry time, with no further call
    to the network. *)
Theorem second_request_is_served_from_cache (w1 w2 : world) (id : string)
    (req req' data : value) (p : ProxyManager) :
  accepted req = true -> accepted req' = true ->
  field req' "method" = field req "method" ->
  field req' "params" = field req "params" ->
  Cache.shouldCache (field req "method") = true ->
  fst (Cache.get (t_lookup w1) id req (cacheManager p)) = Return VNull ->
  fst (Breaker.enter (t_admit w1)
         (fst (BreakerManager.getBreaker (t_lookup w1) id
                 BreakerManager.no_options (circuitBreakerManager p))))
    = Invoke ->
  queue_timeout w1 = false -> upstream w1 = Return data ->
  JS.truthy data && JS.typeof_object data = true ->
  is_error_response data = false ->
  Z.of_nat (size (cache (snd (Cache.get (t_lookup w1) id req (cacheManager p)))))
    < NodeCache.maxKeys ->
  t_lookup w2 <= expiry_of (t_store w1) (field req "method") ->
  fst (Proxy.processRequest w1 id req p) = Return data
  /\ fst (Proxy.processRequest w2 id req'
            (snd (Proxy.processRequest w1 id req p))) = Return data
  /\ http_calls (snd (Proxy.processRequest w2 id req'
                        (snd (Proxy.processRequest w1 id req p))))
     = http_calls (snd (Proxy.processRequest w1 id req p)).
Proof.
  intros Hacc Hacc' Hm Hp Hc Hmiss Hadm Hq Hup Hobj Herr Hsize Hexp.
  destruct (accepted_is_value req Hacc) as (Hn & Hu).
  destruct (accepted_is_value req' Hacc') as (Hn' & Hu').
  assert (JS.truthy data = true) as Htd
    by (destruct (JS.truthy data); [reflexivity | discriminate Hobj]).
  destruct (set_then_get_roundtrip (t_store w1) (t_lookup w2) id req req' data
              (snd (Cache.get (t_lookup w1) id req (cacheManager p)))
              Hn Hu Hn' Hu' Hm Hp Hc Htd Herr Hsize Hexp)
    as (Hset & _ & Hget & _).
  destruct (reply_call w1 id req p _ data Hacc Hmiss eq_refl Hadm Hq Hup Hobj)
    as (Hres & Hcm & _ & _).
  rewrite Hset in Hres.
  destruct (processRequest_state w1 id req p) as (Hst & Hfst).
  split; [apply Hfst, Hres|].
  rewrite Hst.
  set (p1 := snd (Proxy.attempt w1 id req p)) in *.
  assert (fst (Cache.get (t_lookup w2) id req' (cacheManager p1)) = Return data)
    as Hhit by (rewrite Hcm; exact Hget).
  rewrite (hit_call w2 id req' data p1 Hacc' Hhit Htd). cbn [fst snd].
  split; [reflexivity|].
  unfold http_calls. cbn [calls]. rewrite List.filter_app. cbn.
  apply app_nil_r.
Qed.

Lemma second_request_is_served_from_cache_witness :
  fst (Proxy.processRequest (world_of 1000 (Return reply_ok)) "X" req_list proxy0)
    = Return reply_ok
  /\ fst (Proxy.processRequest (world_of 200000 (Throw econnrefused)) "X"
            (request "tools/list" (VObj []) (VStr "another id"))
            (snd (Proxy.processRequest (world_of 1000 (Return reply_ok)) "X"
                    req_list proxy0))) = Return reply_ok
  /\ http_calls (snd (Proxy.processRequest
                        (world_of 200000 (Throw econnrefused)) "X"
                        (request "tools/list" (VObj []) (VStr "another id"))
                        (snd (Proxy.processRequest
                                (world_of 1000 (Return reply_ok)) "X"
                                req_list proxy0))))
     = http_calls (snd (Proxy.processRequest (world_of 1000 (Return reply_ok))
                          "X" req_list proxy0)).
Proof.
  apply (second_request_is_served_from_cache
           (world_of 1000 (Return reply_ok))
           (world_of 200000 (Throw econnrefused)) "X" req_list
           (request "tools/list" (VObj []) (VStr "another id")) reply_ok proxy0).
  - reflexivity.
  - reflexivity.
  - reflexivity.
  - reflexivity.
  - reflexivity.
  - reflexivity.
  - reflexivity.
  - reflexivity.
  - reflexivity.
  - reflexivity.
  - reflexivity.
  - vm_compute. reflexivity.
  - vm_compute. discriminate.
Defined.

Lemma cache_hit_is_served_from_cache_witness :
  fst (Proxy.processRequest (world_of 2000 (Throw econnrefused)) "X" req_list
         proxy_warm_sample) = Return reply_ok
  /\ calls (snd (Proxy.processRequest (world_of 2000 (Throw econnrefused)) "X"
                   req_list proxy_warm_sample))
     = calls proxy_warm_sample ++ [CacheGet "X"]
  /\ circuitBreakerManager
       (snd (Proxy.processRequest (world_of 2000 (Throw econnrefused)) "X"
               req_list proxy_warm_sample))
     = circuitBreakerManager proxy_warm_sample
  /\ cacheManager
       (snd (Proxy.processRequest (world_of 2000 (Throw econnrefused)) "X"
               req_list proxy_warm_sample))
     = snd (Cache.get (t_lookup (world_of 2000 (Throw econnrefused))) "X"
              req_list (cacheManager proxy_warm_sample)).
Proof.
  apply (cache_hit_is_served_from_cache (world_of 2000 (Throw econnrefused))
           "X" req_list reply_ok proxy_warm_sample).
  - reflexivity.
  - vm_compute. reflexivity.
  - reflexivity.
Defined.

(** X18.  A full cache costs the caller the reply: when the upstream
    answers a forwarded, cacheable request with an object without error but
    the cache already holds [maxKeys] entries, storing the reply throws,
    and the caller gets the internal-error envelope (code -32603) instead
    of the reply, although the call went to the network and the breaker
    counted a success. *)
Theorem full_cache_turns_reply_into_error (w : world) (id : string)
    (req data : value) (p : ProxyManager) (b : CircuitBreaker) :
  accepted req = true ->
  Cache.shouldCache (field req "method") = true ->
  fst (Cache.get (t_lookup w) id req (cacheManager p)) = Return VNull ->
  fst (BreakerManager.getBreaker (t_lookup w) id BreakerManager.no_options
         (circuitBreakerManager p)) = b ->
  fst (Breaker.enter (t_admit w) b) = Invoke ->
  queue_timeout w = false -> upstream w = Return data ->
  JS.truthy data && JS.typeof_object data = true ->
  is_error_response data = false ->
  NodeCache.maxKeys
    <= Z.of_nat (size (cache (snd (Cache.get (t_lookup w) id req
                                     (cacheManager p))))) ->
  fst (Proxy.processRequest w id req p) = Return (internal_error_response id)
  /\ breakers (circuitBreakerManager (snd (Proxy.processRequest w id req p)))
       !! id
     = Some (Breaker.onSuccess (t_settle w) (snd (Breaker.enter (t_admit w) b)))
  /\ length (http_calls (snd (Proxy.processRequest w id req p)))
     = S (length (http_calls p)).
Proof.
  intros Hacc Hc Hmiss Hb Hadm Hq Hup Hobj Herr Hfull.
  destruct (accepted_is_value req Hacc) as (Hn & Hu).
  assert (data <> VNull /\ data <> VUndefined) as (Hdn & Hdu)
    by (split; intros ->; discriminate Hobj).
  destruct (reply_call w id req p b data Hacc Hmiss Hb Hadm Hq Hup Hobj)
    as (Hres & _ & Hbr & Hhttp).
  rewrite (set_throws_when_full _ _ _ _ _ Hn Hu Hc Hdn Hdu Herr Hfull)
    in Hres. cbn in Hres.
  destruct (processRequest_state w id req p) as (Hst & _).
  rewrite Hst, Hbr, Hhttp, length_app. cbn.
  split; [|split; [reflexivity | lia]].
  unfold Proxy.processRequest.
  destruct (Proxy.attempt w id req p) as [[r|e] p']; cbn in Hres;
    [discriminate|]. injection Hres as ->. cbn.
  unfold Proxy.recover. rewrite (get_defined req "method" Hn Hu). reflexivity.
Qed.

Lemma full_cache_turns_reply_into_error_witness :
  fst (Proxy.processRequest (world_of 1000 (Return reply_ok)) "X" req_list
         proxy_full_sample) = Return (internal_error_response "X").
Proof.
  apply (full_cache_turns_reply_into_error (world_of 1000 (Return reply_ok))
           "X" req_list reply_ok proxy_full_sample
           (Breaker.create 1000 "X"
              (mk_breaker_options (Some 5) (Some 30000) (Some 60000)))).
  - reflexivity.
  - reflexivity.
  - vm_compute. reflexivity.
  - reflexivity.
  - reflexivity.
  - reflexivity.
  - reflexivity.
  - reflexivity.
  - reflexivity.
  - vm_compute. discriminate.
Defined.

Lemma classify_code (e : js_error) (id : string) :
  error_code (handleProxyError e id) = Some (classify e).
Proof.
  unfold handleProxyError, classify.
  destruct (code_is e "ECONNREFUSED" "ENOTFOUND"); [reflexivity|].
  destruct (code_is e "ETIMEDOUT" "ECONNABORTED"); [reflexivity|].
  destruct (err_response e) as [[status body]|]; reflexivity.
Qed.

(** X19.  A failed upstream call is answered by its class: when a
    forwarded call fails with an error whose code is not
    CIRCUIT_BREAKER_OPEN, the caller gets the envelope of
    [handleProxyError]: -32001 for a refused connection or unknown host,
    -32002 for a timeout, else -32004 when the error carries an HTTP
    response and -32603 when it does not; the breaker counts one failure
    and nothing is stored. *)
Theorem upstream_failure_is_classified (w : world) (id : string)
    (req : value) (p : ProxyManager) (b : CircuitBreaker) (e : js_error) :
  accepted req = true ->
  fst (Cache.get (t_lookup w) id req (cacheManager p)) = Return VNull ->
  fst (BreakerManager.getBreaker (t_lookup w) id BreakerManager.no_options
         (circuitBreakerManager p)) = b ->
  fst (Breaker.enter (t_admit w) b) = Invoke ->
  queue_timeout w = false -> upstream w = Throw e ->
  is_circuit_open e = false ->
  fst (Proxy.processRequest w id req p) = Return (handleProxyError e id)
  /\ error_code (handleProxyError e id) = Some (classify e)
  /\ breakers (circuitBreakerManager (snd (Proxy.processRequest w id req p)))
       !! id
     = Some (Breaker.onFailure (t_settle w) (snd (Breaker.enter (t_admit w) b)))
  /\ cacheManager (snd (Proxy.processRequest w id req p))
     = snd (Cache.get (t_lookup w) id req (cacheManager p)).
Proof.
  intros Hacc Hmiss Hb Hadm Hq Hup Hopen.
  destruct (accepted_is_value req Hacc) as (Hn & Hu).
  destruct (failure_call w id req p b e Hacc Hmiss Hb Hadm Hq Hup)
    as (Hres & Hcm & Hbr & _).
  destruct (processRequest_state w id req p) as (Hst & _).
  rewrite Hst, Hbr, Hcm.
  split; [|split; [apply classify_code | split; reflexivity]].
  unfold Proxy.processRequest.
  destruct (Proxy.attempt w id req p) as [[r|e'] p']; cbn in Hres;
    [discriminate|]. injection Hres as ->. cbn.
  unfold Proxy.recover. rewrite (get_defined req "method" Hn Hu). cbn.
  unfold is_circuit_open in Hopen. rewrite Hopen. reflexivity.
Qed.

Lemma upstream_failure_is_classified_witness :
  fst (Proxy.processRequest (world_of 1000 (Throw (http_error 404))) "X"
         req_call proxy0) = Return (handleProxyError (http_error 404) "X")
  /\ error_code (handleProxyError (http_error 404) "X")
     = Some (classify (http_error 404)).
Proof.
  pose proof (upstream_failure_is_classified
                (world_of 1000 (Throw (http_error 404))) "X" req_call proxy0
                (Breaker.create 1000 "X"
                   (mk_breaker_options (Some 5) (Some 30000) (Some 60000)))
                (http_error 404)) as H.
  destruct H as (H1 & H2 & _).
  - reflexivity.
  - reflexivity.
  - reflexivity.
  - reflexivity.
  - reflexivity.
  - reflexivity.
  - reflexivity.
  - split; [exact H1 | exact H2].
Defined.

(** X20.  The validator accepts exactly the requests whose [jsonrpc] is
    the string 2.0, whose [method] is a string and whose [id] is not
    [undefined]: an id of [null], an empty method and further members are
    all accepted; arrays, strings, numbers, [null] and [undefined] are
    not. *)
Theorem validator_accepts_exactly (req : value) :
  accepted req = true
  <-> field req "jsonrpc" = VStr "2.0"
      /\ JS.is_string (field req "method") = true
      /\ field req "id" <> VUndefined.
Proof.
  destruct req as [| |b|n|s|items|fields];
    try (split; [discriminate | intros (H & _); discriminate H]).
  - unfold accepted, Proxy.isValidMCPRequest. destruct b; cbn;
      (split; [discriminate | intros (H & _); discriminate H]).
  - unfold accepted, Proxy.isValidMCPRequest. cbn.
    destruct (n =? 0) eqn:E; cbn; rewrite ?E; cbn;
      (split; [discriminate | intros (H & _); discriminate H]).
  - unfold accepted, Proxy.isValidMCPRequest. cbn.
    destruct (String.eqb s EmptyString) eqn:E; cbn; rewrite ?E; cbn;
      (split; [discriminate | intros (H & _); discriminate H]).
  - unfold accepted, Proxy.isValidMCPRequest, field, own. cbn.
    set (v := default VUndefined (JS.assoc "jsonrpc" fields)).
    set (m := default VUndefined (JS.assoc "method" fields)).
    set (i := default VUndefined (JS.assoc "id" fields)).
    destruct (JS.strict_eq_str v "2.0") eqn:Ev; cbn.
    + assert (v = VStr "2.0") as ->.
      { destruct v; try discriminate Ev. cbn in Ev.
        apply String.eqb_eq in Ev. congruence. }
      destruct (JS.is_string m) eqn:Em; cbn.
      * split.
        -- intros Hi. split; [reflexivity|]. split; [reflexivity|].
           intros Hund. rewrite Hund in Hi. discriminate Hi.
        -- intros (_ & _ & Hi). destruct i; try reflexivity. congruence.
      * split; [discriminate | intros (_ & H & _); discriminate H].
    + split; [discriminate|]. intros (H & _). rewrite H in Ev. discriminate Ev.
Qed.

Lemma get_on_empty_cache (now : Z) (id : string) (req : value)
    (h m s : Z) :
  req <> VNull -> req <> VUndefined ->
  fst (Cache.get now id req (mk_cache ∅ h m s)) = Return VNull.
Proof.
  intros Hn Hu. destruct (key_total id req Hn Hu) as (suffix & Hkey).
  unfold Cache.get. rewrite (get_defined req "method" Hn Hu).
  destruct (Cache.shouldCache (field req "method")); [|reflexivity].
  cbn [negb]. rewrite Hkey. unfold NodeCache.get. cbn [cache].
  rewrite lookup_empty. reflexivity.
Qed.

Lemma breaker_after_resetAll (t now : Z) (id : string)
    (m : CircuitBreakerManager) :
  state (fst (BreakerManager.getBreaker t id BreakerManager.no_options
                (BreakerManager.resetAll now m))) = CLOSED.
Proof.
  unfold BreakerManager.getBreaker, BreakerManager.resetAll. cbn.
  rewrite lookup_fmap. destruct (breakers m !! id); reflexivity.
Qed.

(** X21.  [cleanup] reopens every backend: it empties the cache and
    closes every breaker, so the next accepted request, for whatever
    backend and method, is neither served from the cache nor refused, but
    makes its call to the network. *)
Theorem cleanup_reopens_every_backend (now : Z) (w : world) (id : string)
    (req : value) (p : ProxyManager) :
  accepted req = true ->
  cache (cacheManager (Proxy.cleanup now p)) = ∅
  /\ http_calls (snd (Proxy.processRequest w id req (Proxy.cleanup now p)))
     = http_calls p
         ++ [HttpPost (difyBaseUrl (config p) +:+ "/mcp/server/" +:+ id
                         +:+ "/mcp")].
Proof.
  intros Hacc. destruct (accepted_is_value req Hacc) as (Hn & Hu).
  split; [reflexivity|].
  destruct (processRequest_state w id req (Proxy.cleanup now p)) as (-> & _).
  assert (fst (Cache.get (t_lookup w) id req
                 (cacheManager (Proxy.cleanup now p))) = Return VNull) as Hmiss
    by (apply get_on_empty_cache; assumption).
  assert (fst (Breaker.enter (t_admit w)
                 (fst (BreakerManager.getBreaker (t_lookup w) id
                         BreakerManager.no_options
                         (circuitBreakerManager (Proxy.cleanup now p)))))
          = Invoke) as Hadm.
  { apply enter_passes. cbn [Proxy.cleanup circuitBreakerManager].
    rewrite breaker_after_resetAll. discriminate. }
  destruct (forwarded_call w id req (Proxy.cleanup now p) _ Hacc Hmiss eq_refl
              Hadm) as (post & Hcalls & Hpost & _).
  unfold http_calls. rewrite Hcalls, !List.filter_app. cbn.
  destruct Hpost as [-> | ->]; cbn; rewrite ?app_nil_r; reflexivity.
Qed.

Lemma cleanup_reopens_every_backend_witness :
  http_calls (snd (Proxy.processRequest (world_of 2000 (Return reply_ok)) "X"
                     req_list (Proxy.cleanup 1500 proxy_open_sample)))
  = http_calls proxy_open_sample
      ++ [HttpPost (difyBaseUrl (config proxy_open_sample) +:+ "/mcp/server/"
                      +:+ "X" +:+ "/mcp")].
Proof.
  apply (cleanup_reopens_every_backend 1500 (world_of 2000 (Return reply_ok))
           "X" req_list proxy_open_sample).
  reflexivity.
Defined.

(** ** The HTTP route *)





(** ** More on retries and on failure decay *)

Lemma retry_loop_sum (isRetryAllowed : js_error -> bool) (cfg : proxy_config)
    (attempts : nat -> completion value) (remaining : nat) :
  0 <= maxRetryDelay cfg ->
  forall (retryCount : Z) (i : nat),
    sum_list (snd (Retry.retry_loop isRetryAllowed cfg remaining retryCount
                     attempts i))
    <= Z.of_nat remaining * maxRetryDelay cfg.
Proof.
  intros Hmax.
  induction remaining as [|remaining IH]; intros retryCount i.
  - cbn. destruct (attempts i); cbn; lia.
  - cbn [Retry.retry_loop]. destruct (attempts i) as [data|e]; [cbn; lia|].
    destruct (Retry.retryCondition isRetryAllowed e); [|cbn; lia].
    specialize (IH (retryCount + 1) (S i)).
    destruct (Retry.retry_loop isRetryAllowed cfg remaining (retryCount + 1)
                attempts (S i)) as [r delays].
    cbn [snd] in *. unfold sum_list in *. cbn [fold_right].
    pose proof (delay_capped cfg (retryCount + 1)). lia.
Qed.

(** X23.  The time one call spends backing off is bounded: the delays
    [axios.post] waits between its attempts add up to at most
    [retryAttempts] times [maxRetryDelay]. *)
Theorem retry_backoff_is_bounded (isRetryAllowed : js_error -> bool)
    (cfg : proxy_config) (attempts : nat -> completion value) :
  0 <= maxRetryDelay cfg -> 0 <= retryAttempts cfg ->
  sum_list (snd (Retry.axios_post isRetryAllowed cfg attempts))
  <= retryAttempts cfg * maxRetryDelay cfg.
Proof.
  intros Hmax Hn. unfold Retry.axios_post.
  pose proof (retry_loop_sum isRetryAllowed cfg attempts
                (Z.to_nat (retryAttempts cfg)) Hmax 0 0%nat) as H.
  rewrite Z2Nat.id in H by exact Hn. exact H.
Qed.

Lemma retry_backoff_is_bounded_witness :
  sum_list (snd (Retry.axios_post allow_all Proxy.default_config
                   (fun _ => Throw (http_error 503))))
  <= retryAttempts Proxy.default_config * maxRetryDelay Proxy.default_config.
Proof.
  apply (retry_backoff_is_bounded allow_all Proxy.default_config
           (fun _ => Throw (http_error 503))).
  - vm_compute. discriminate.
  - vm_compute. discriminate.
Defined.

(** X24.  A call that timed out is not retried: an error with code
    ECONNABORTED and no response fails the retry condition whatever
    is-retry-allowed says, so [axios.post] settles with it after the first
    attempt, and [handleProxyError] answers it with code -32002. *)
Theorem timeouts_are_not_retried (isRetryAllowed : js_error -> bool)
    (cfg : proxy_config) (attempts : nat -> completion value) (e : js_error)
    (id : string) :
  err_code e = Some "ECONNABORTED" -> err_response e = None ->
  attempts 0%nat = Throw e ->
  Retry.retryCondition isRetryAllowed e = false
  /\ Retry.axios_post isRetryAllowed cfg attempts = (Throw e, [])
  /\ error_code (handleProxyError e id) = Some (-32002).
Proof.
  intros Hc Hr Ha.
  assert (Retry.retryCondition isRetryAllowed e = false) as Hcond.
  { unfold Retry.retryCondition, Retry.isNetworkOrIdempotentRequestError,
      Retry.isNetworkError, Retry.isIdempotentRequestError, Retry.code_in,
      Retry.has_response.
    rewrite Hc, Hr. cbn. rewrite !andb_false_r. reflexivity. }
  split; [exact Hcond|]. split.
  - unfold Retry.axios_post.
    destruct (Z.to_nat (retryAttempts cfg)); cbn; rewrite Ha;
      [reflexivity|]. rewrite Hcond. reflexivity.
  - rewrite classify_code. unfold classify, code_is. rewrite Hc. reflexivity.
Qed.

Lemma timeouts_are_not_retried_witness :
  Retry.retryCondition allow_all econnaborted = false
  /\ Retry.axios_post allow_all Proxy.default_config
       (fun _ => Throw econnaborted) = (Throw econnaborted, [])
  /\ error_code (handleProxyError econnaborted "X") = Some (-32002).
Proof.
  apply (timeouts_are_not_retried allow_all Proxy.default_config
           (fun _ => Throw econnaborted) econnaborted "X").
  - reflexivity.
  - reflexivity.
  - reflexivity.
Defined.

Lemma breaker_run_cons (op : breaker_op) (ops : list breaker_op)
    (b : CircuitBreaker) :
  breaker_run (op :: ops) b = breaker_run ops (breaker_step b op).
Proof. reflexivity. Qed.

(** X25.  Failures decay one per success: after [n] successes in a row
    a CLOSED breaker is still CLOSED and its failure count has gone down
    by [n], stopping at zero. *)
Theorem successes_decay_failures (times : list Z) :
  forall b : CircuitBreaker,
    state b = CLOSED -> 0 <= failureCount b ->
    state (breaker_run (map BSuccess times) b) = CLOSED
    /\ failureCount (breaker_run (map BSuccess times) b)
       = Z.max 0 (failureCount b - Z.of_nat (length times)).
Proof.
  induction times as [|t times IH]; intros b Hs Hc.
  - cbn. split; [exact Hs | lia].
  - cbn [map]. rewrite breaker_run_cons. cbn [breaker_step].
    destruct (onSuccess_closed t b Hs) as (H1 & H2).
    destruct (IH (Breaker.onSuccess t b) H1) as (H3 & H4); [lia|].
    rewrite H3, H4, H2. cbn [length]. split; [reflexivity | lia].
Qed.

Lemma successes_decay_failures_witness :
  state (breaker_run (map BSuccess [10; 20]) breaker_closed_sample) = CLOSED
  /\ failureCount (breaker_run (map BSuccess [10; 20]) breaker_closed_sample)
     = Z.max 0 (failureCount breaker_closed_sample - Z.of_nat (length [10; 20])).
Proof.
  apply (successes_decay_failures [10; 20] breaker_closed_sample).
  - reflexivity.
  - vm_compute. discriminate.
Defined.

Lemma onSuccess_keeps_trips (t : Z) (b : CircuitBreaker) :
  circuitBreakerTrips (stats (Breaker.onSuccess t b))
  = circuitBreakerTrips (stats b).
Proof.
  unfold Breaker.onSuccess, Breaker.is_half_open, Breaker.is_closed. cbn.
  destruct (state b); reflexivity.
Qed.

Lemma onSuccess_keeps_threshold (t : Z) (b : CircuitBreaker) :
  failureThreshold (Breaker.onSuccess t b) = failureThreshold b.
Proof.
  unfold Breaker.onSuccess, Breaker.is_half_open, Breaker.is_closed. cbn.
  destruct (state b); reflexivity.
Qed.

Lemma onFailure_below_keeps_trips (t : Z) (b : CircuitBreaker) :
  state b = CLOSED -> failureCount b + 1 < failureThreshold b ->
  circuitBreakerTrips (stats (Breaker.onFailure t b))
  = circuitBreakerTrips (stats b).
Proof.
  intros Hs Hlt. unfold Breaker.onFailure, Breaker.is_half_open,
    Breaker.is_closed. cbn. rewrite Hs. cbn.
  destruct (Z.leb_spec (failureThreshold b) (failureCount b + 1));
    [lia | cbn; rewrite ?Hs; reflexivity].
Qed.

Lemma alternating_cons (t1 t2 : Z) (times : list (Z * Z)) (b : CircuitBreaker) :
  breaker_run (alternating ((t1, t2) :: times)) b
  = breaker_run (alternating times)
      (Breaker.onSuccess t2 (Breaker.onFailure t1 b)).
Proof. reflexivity. Qed.

Lemma alternating_turn (t1 t2 : Z) (b : CircuitBreaker) :
  state b = CLOSED -> failureCount b = 0 -> 2 <= failureThreshold b ->
  state (Breaker.onSuccess t2 (Breaker.onFailure t1 b)) = CLOSED
  /\ failureCount (Breaker.onSuccess t2 (Breaker.onFailure t1 b)) = 0
  /\ failureThreshold (Breaker.onSuccess t2 (Breaker.onFailure t1 b))
     = failureThreshold b
  /\ circuitBreakerTrips (stats (Breaker.onSuccess t2 (Breaker.onFailure t1 b)))
     = circuitBreakerTrips (stats b).
Proof.
  intros Hs Hz Hth.
  destruct (onFailure_closed t1 b Hs) as (Hstay & _ & Hc & Ht & _ & _).
  assert (state (Breaker.onFailure t1 b) = CLOSED) as Hs1
    by (apply Hstay; lia).
  destruct (onSuccess_closed t2 _ Hs1) as (Hs2 & Hc2).
  split; [exact Hs2|]. split; [rewrite Hc2, Hc; lia|].
  split; [rewrite onSuccess_keeps_threshold; exact Ht|].
  rewrite onSuccess_keeps_trips. apply onFailure_below_keeps_trips;
    [exact Hs | lia].
Qed.

(** X26.  A backend that fails every other call never opens its
    circuit: with a threshold of at least 2, a CLOSED breaker without
    counted failures that sees failures and successes take turns stays
    CLOSED, its failure count back at zero after every success. *)
Theorem alternating_failures_never_trip (times : list (Z * Z)) :
  forall b : CircuitBreaker,
    state b = CLOSED -> failureCount b = 0 -> 2 <= failureThreshold b ->
    state (breaker_run (alternating times) b) = CLOSED
    /\ failureCount (breaker_run (alternating times) b) = 0
    /\ circuitBreakerTrips (stats (breaker_run (alternating times) b))
       = circuitBreakerTrips (stats b).
Proof.
  induction times as [|[t1 t2] times IH]; intros b Hs Hz Hth.
  - cbn. auto.
  - rewrite alternating_cons.
    destruct (alternating_turn t1 t2 b Hs Hz Hth) as (T1 & T2 & T3 & T4).
    destruct (IH (Breaker.onSuccess t2 (Breaker.onFailure t1 b)) T1 T2)
      as (H1 & H2 & H3); [lia|].
    rewrite H1, H2, H3, T4. auto.
Qed.

Lemma alternating_failures_never_trip_witness :
  state (breaker_run (alternating [(10, 20); (30, 40); (50, 60)])
           breaker_fresh_sample) = CLOSED
  /\ failureCount (breaker_run (alternating [(10, 20); (30, 40); (50, 60)])
                     breaker_fresh_sample) = 0
  /\ circuitBreakerTrips
       (stats (breaker_run (alternating [(10, 20); (30, 40); (50, 60)])
                 breaker_fresh_sample))
     = circuitBreakerTrips (stats breaker_fresh_sample).
Proof.
  apply (alternating_failures_never_trip [(10, 20); (30, 40); (50, 60)]
           breaker_fresh_sample).
  - reflexivity.
  - reflexivity.
  - vm_compute. discriminate.
Defined.

(** ** Failures in a row, seen from the entry point *)

Lemma failed_call (w : world) (id : string) (req : value)
    (p : ProxyManager) (b : CircuitBreaker) :
  accepted req = true ->
  fst (Cache.get (t_lookup w) id req (cacheManager p)) = Return VNull ->
  fst (BreakerManager.getBreaker (t_lookup w) id BreakerManager.no_options
         (circuitBreakerManager p)) = b ->
  fst (Breaker.enter (t_admit w) b) = Invoke ->
  call_fails w = true ->
  cacheManager (snd (Proxy.processRequest w id req p))
  = snd (Cache.get (t_lookup w) id req (cacheManager p))
  /\ breakers (circuitBreakerManager (snd (Proxy.processRequest w id req p)))
       !! id
     = Some (Breaker.onFailure (t_settle w) (snd (Breaker.enter (t_admit w) b)))
  /\ http_calls (snd (Proxy.processRequest w id req p))
     = http_calls p
         ++ [HttpPost (difyBaseUrl (config p) +:+ "/mcp/server/" +:+ id
                         +:+ "/mcp")].
Proof.
  intros Hacc Hmiss Hb Hadm Hfail.
  destruct (processRequest_state w id req p) as (-> & _).
  destruct (accepted_is_value req Hacc) as (Hn & Hu).
  destruct (accepted_valid req Hacc) as (v & Hv & Ht).
  unfold call_fails in Hfail.
  destruct (queue_timeout w) eqn:Hq; [discriminate Hfail|]. cbn in Hfail.
  unfold Proxy.attempt, http_calls.
  rewrite Hv, Ht. cbn [negb].
  cbn [cacheManager Proxy.record].
  destruct (Cache.get (t_lookup w) id req (cacheManager p)) as [[c|e'] cm];
    cbn in Hmiss; [|discriminate]. injection Hmiss as ->.
  cbn [JS.truthy snd].
  cbn [circuitBreakerManager Proxy.record Proxy.with_cache].
  destruct (BreakerManager.getBreaker (t_lookup w) id BreakerManager.no_options
              (circuitBreakerManager p)) as [b' m]. cbn in Hb. subst b'.
  rewrite (get_defined req "method" Hn Hu).
  unfold Proxy.dispatch.
  destruct (Breaker.enter (t_admit w) b) as [a b1]. cbn in Hadm. subst a.
  unfold Proxy.forwardRequest.
  rewrite (get_defined req "method" Hn Hu), Hq.
  destruct (upstream w) as [data|e].
  - destruct (JS.truthy data && JS.typeof_object data); [discriminate Hfail|].
    cbn. rewrite <- ?app_assoc, !List.filter_app. cbn. rewrite ?app_nil_r.
    split; [reflexivity|]. split; [apply lookup_insert_eq | reflexivity].
  - cbn. rewrite <- ?app_assoc, !List.filter_app. cbn. rewrite ?app_nil_r.
    split; [reflexivity|]. split; [apply lookup_insert_eq | reflexivity].
Qed.

(** One failing request met by a CLOSED breaker. *)
Lemma failed_call_closed (w : world) (id : string) (req : value)
    (p : ProxyManager) (b : CircuitBreaker) :
  accepted req = true ->
  fst (Cache.get (t_lookup w) id req (cacheManager p)) = Return VNull ->
  fst (BreakerManager.getBreaker (t_lookup w) id BreakerManager.no_options
         (circuitBreakerManager p)) = b ->
  state b = CLOSED -> call_fails w = true ->
  (forall t,
      fst (Cache.get t id req
             (cacheManager (snd (Proxy.processRequest w id req p))))
      = Return VNull)
  /\ length (http_calls (snd (Proxy.processRequest w id req p)))
     = S (length (http_calls p))
  /\ exists b',
       breakers (circuitBreakerManager (snd (Proxy.processRequest w id req p)))
         !! id = Some b'
       /\ failureCount b' = failureCount b + 1
       /\ failureThreshold b' = failureThreshold b
       /\ recoveryTimeout b' = recoveryTimeout b
       /\ serverId b' = serverId b
       /\ (failureCount b + 1 < failureThreshold b -> state b' = CLOSED)
       /\ (failureThreshold b <= failureCount b + 1 ->
           state b' = OPEN /\ nextAttempt b' = t_settle w + recoveryTimeout b).
Proof.
  intros Hacc Hmiss Hb Hs Hfail.
  assert (state b <> OPEN) as Hno by congruence.
  destruct (enter_passes (t_admit w) b Hno) as (Hadm & Hst & _).
  destruct (enter_keeps_settings (t_admit w) b) as (Hth & Hrt & Hid & Hfc).
  destruct (failed_call w id req p b Hacc Hmiss Hb Hadm Hfail)
    as (Hcm & Hbr & Hhttp).
  rewrite Hs in Hst.
  destruct (onFailure_closed (t_settle w) _ Hst)
    as (Hstay & Htrip & Hc & Ht & Hr & Hi).
  split; [|split].
  - intros t. rewrite Hcm. apply miss_is_stable, Hmiss.
  - rewrite Hhttp, length_app. cbn. lia.
  - eexists. split; [exact Hbr|].
    rewrite Hc, Ht, Hr, Hi, Hfc, Hth, Hrt, Hid.
    repeat split; try reflexivity.
    + intros Hlt. apply Hstay. rewrite Hfc, Hth. exact Hlt.
    + apply Htrip. rewrite Hfc, Hth. assumption.
    + rewrite <- Hrt. apply Htrip. rewrite Hfc, Hth. assumption.
Qed.

Lemma getBreaker_registered (t : Z) (id : string) (m : CircuitBreakerManager)
    (b : CircuitBreaker) :
  breakers m !! id = Some b ->
  fst (BreakerManager.getBreaker t id BreakerManager.no_options m) = b.
Proof.
  intros Hb. unfold BreakerManager.getBreaker. rewrite Hb. reflexivity.
Qed.

Lemma serve_cons (id : string) (req : value) (w : world) (ws : list world)
    (p : ProxyManager) :
  snd (serve id req (w :: ws) p)
  = snd (serve id req ws (snd (Proxy.processRequest w id req p))).
Proof.
  cbn [serve]. destruct (Proxy.processRequest w id req p) as [r p1].
  cbn [snd]. destruct (serve id req ws p1) as [rs p2]. reflexivity.
Qed.

(** Failing requests served one after the other, as many as the breaker
    still needs to reach its threshold: the last one trips it. *)
Lemma serve_until_trip (id : string) (req : value) (ws : list world) :
  forall (w : world) (p : ProxyManager) (b : CircuitBreaker),
    accepted req = true ->
    fst (Cache.get (t_lookup w) id req (cacheManager p)) = Return VNull ->
    fst (BreakerManager.getBreaker (t_lookup w) id BreakerManager.no_options
           (circuitBreakerManager p)) = b ->
    state b = CLOSED ->
    failureCount b + Z.of_nat (length (w :: ws)) = failureThreshold b ->
    forallb call_fails (w :: ws) = true ->
    (forall t,
        fst (Cache.get t id req (cacheManager (snd (serve id req (w :: ws) p))))
        = Return VNull)
    /\ length (http_calls (snd (serve id req (w :: ws) p)))
       = (length (http_calls p) + length (w :: ws))%nat
    /\ exists b',
         breakers (circuitBreakerManager (snd (serve id req (w :: ws) p))) !! id
           = Some b'
         /\ state b' = OPEN
         /\ nextAttempt b' = last_settle w ws + recoveryTimeout b
         /\ serverId b' = serverId b.
Proof.
  induction ws as [|w2 ws IH]; intros w p b Hacc Hmiss Hb Hs Hlen Hfail;
    rewrite serve_cons; cbn [forallb] in Hfail;
    apply andb_prop in Hfail as (Hf1 & Hf2);
    destruct (failed_call_closed w id req p b Hacc Hmiss Hb Hs Hf1)
      as (Hmiss1 & Hhttp1 & b1 & Hb1 & Hc1 & Ht1 & Hr1 & Hi1 & Hstay & Htrip).
  - cbn [serve snd length last_settle] in *.
    destruct Htrip as (Ho & Hn); [lia|].
    split; [exact Hmiss1|]. split; [lia|].
    exists b1. auto.
  - cbn [length] in Hlen.
    destruct (IH w2 (snd (Proxy.processRequest w id req p)) b1 Hacc)
      as (Hmiss2 & Hhttp2 & b2 & Hb2 & Ho2 & Hn2 & Hi2).
    + apply Hmiss1.
    + apply getBreaker_registered, Hb1.
    + apply Hstay. lia.
    + cbn [length]. rewrite Hc1, Ht1. lia.
    + exact Hf2.
    + split; [exact Hmiss2|]. split.
      * rewrite Hhttp2, Hhttp1. cbn [length]. lia.
      * exists b2. rewrite Hn2, Hi2, Hr1, Hi1. cbn [last_settle]. auto.
Qed.

(** C4.  An OPEN breaker whose [nextAttempt] lies ahead fails the call at
    once with the error of code CIRCUIT_BREAKER_OPEN, whatever the
    protected function would have done (it is not called);
    [processRequest] answers with the error envelope of code -32003 and
    makes no call to the network; a CLOSED breaker that has counted no
    failure is OPEN after [failureThreshold] failures in a row, every call
    until the last failure time plus [recoveryTimeout] being refused that
    way; and at the entry point, after [failureThreshold] requests in a row
    whose forwarded call failed, starting from a CLOSED breaker without
    counted failures (or from no breaker yet), the next request admitted
    before the last failure time plus [recoveryTimeout] is answered -32003
    without any call to the network. *)
Theorem open_breaker_fails_fast :
  (forall (b : CircuitBreaker) (t t' : Z) (fn : completion value),
      state b = OPEN -> t < nextAttempt b ->
      Breaker.execute t t' fn b
        = (Throw (Breaker.open_error b), snd (Breaker.enter t b))
      /\ err_code (Breaker.open_error b) = Some "CIRCUIT_BREAKER_OPEN")
  /\ (forall (w : world) (id : string) (req : value) (p : ProxyManager)
             (b : CircuitBreaker),
        accepted req = true ->
        fst (Cache.get (t_lookup w) id req (cacheManager p)) = Return VNull ->
        breakers (circuitBreakerManager p) !! id = Some b ->
        state b = OPEN -> t_admit w < nextAttempt b ->
        exists resp,
          fst (Proxy.processRequest w id req p) = Return resp
          /\ error_code resp = Some (-32003)
          /\ http_calls (snd (Proxy.processRequest w id req p))
             = http_calls p)
  /\ (forall (e : js_error) (times : list (Z * Z)) (t1 t2 : Z)
             (b : CircuitBreaker) (t t' : Z) (fn : completion value),
        state b = CLOSED -> failureCount b = 0 ->
        Z.of_nat (length times) + 1 = failureThreshold b ->
        t < t2 + recoveryTimeout b ->
        state (failing_calls e (times ++ [(t1, t2)]) b) = OPEN
        /\ fst (Breaker.execute t t' fn (failing_calls e (times ++ [(t1, t2)]) b))
           = Throw (Breaker.open_error b))
  /\ (forall (w1 : world) (ws : list world) (w : world) (id : string)
             (req : value) (p : ProxyManager),
        accepted req = true ->
        fst (Cache.get (t_lookup w1) id req (cacheManager p)) = Return VNull ->
        state (fst (BreakerManager.getBreaker (t_lookup w1) id
                      BreakerManager.no_options (circuitBreakerManager p)))
          = CLOSED ->
        failureCount (fst (BreakerManager.getBreaker (t_lookup w1) id
                             BreakerManager.no_options (circuitBreakerManager p)))
          = 0 ->
        Z.of_nat (length (w1 :: ws))
          = failureThreshold
              (fst (BreakerManager.getBreaker (t_lookup w1) id
                      BreakerManager.no_options (circuitBreakerManager p))) ->
        forallb call_fails (w1 :: ws) = true ->
        t_admit w
          < last_settle w1 ws
            + recoveryTimeout
                (fst (BreakerManager.getBreaker (t_lookup w1) id
                        BreakerManager.no_options (circuitBreakerManager p))) ->
        exists resp,
          fst (Proxy.processRequest w id req (snd (serve id req (w1 :: ws) p)))
            = Return resp
          /\ error_code resp = Some (-32003)
          /\ http_calls (snd (Proxy.processRequest w id req
                                (snd (serve id req (w1 :: ws) p))))
             = http_calls (snd (serve id req (w1 :: ws) p))
          /\ length (http_calls (snd (serve id req (w1 :: ws) p)))
             = (length (http_calls p) + length (w1 :: ws))%nat).
Proof.
  split; [|split; [|split]].
  - intros b t t' fn Hs Hlt.
    destruct (enter_refuses t b Hs Hlt) as (Hr & _ & _).
    unfold Breaker.execute.
    destruct (Breaker.enter t b) as [a b1]. cbn in Hr. subst a.
    split; reflexivity.
  - intros w id req p b Hacc Hmiss Hb Hs Hlt.
    destruct (open_breaker_short_circuits w id req p b Hacc Hmiss Hb Hs Hlt)
      as (resp & p' & -> & _ & Hcode & Hcalls).
    exists resp. cbn [fst snd]. split; [reflexivity|]. split; [exact Hcode|].
    unfold http_calls. rewrite Hcalls, List.filter_app. cbn.
    apply app_nil_r.
  - intros e times t1 t2 b t t' fn Hs Hz Hlen Hlt.
    destruct (threshold_failures_trip e times t1 t2 b Hs Hz Hlen)
      as (Ho & Hn & Hi).
    split; [exact Ho|].
    assert (t < nextAttempt (failing_calls e (times ++ [(t1, t2)]) b)) as Hlt'
      by (rewrite Hn; exact Hlt).
    destruct (enter_refuses t _ Ho Hlt') as (Hr & _ & _).
    unfold Breaker.execute.
    destruct (Breaker.enter t (failing_calls e (times ++ [(t1, t2)]) b))
      as [a b1]. cbn in Hr. subst a. cbn.
    unfold Breaker.open_error. rewrite Hi. reflexivity.
  - intros w1 ws w id req p Hacc Hmiss Hs Hz Hlen Hfail Hlt.
    destruct (serve_until_trip id req ws w1 p _ Hacc Hmiss eq_refl Hs)
      as (Hmiss' & Hhttp & b' & Hb' & Ho & Hn & _);
      [rewrite Hz; lia | exact Hfail |].
    assert (t_admit w < nextAttempt b') as Hlt' by (rewrite Hn; exact Hlt).
    destruct (open_breaker_short_circuits w id req _ b' Hacc
                (Hmiss' (t_lookup w)) Hb' Ho Hlt')
      as (resp & p' & Heq & _ & Hcode & Hcalls).
    exists resp. rewrite Heq. cbn [fst snd].
    split; [reflexivity|]. split; [exact Hcode|]. split; [|exact Hhttp].
    unfold http_calls. rewrite Hcalls, List.filter_app. cbn.
    apply app_nil_r.
Qed.

Lemma open_breaker_fails_fast_witness :
  (Breaker.execute 2000 2020 (Return reply_ok) breaker_open_sample
     = (Throw (Breaker.open_error breaker_open_sample),
        snd (Breaker.enter 2000 breaker_open_sample))
   /\ err_code (Breaker.open_error breaker_open_sample)
        = Some "CIRCUIT_BREAKER_OPEN")
  /\ (exists resp,
        fst (Proxy.processRequest (world_of 2000 (Return reply_ok)) "X"
               req_call proxy_open_sample) = Return resp
        /\ error_code resp = Some (-32003)
        /\ http_calls (snd (Proxy.processRequest
                                (world_of 2000 (Return reply_ok)) "X" req_call
                                proxy_open_sample))
           = http_calls proxy_open_sample)
  /\ (state (failing_calls econnrefused (four_times ++ [(500, 510)])
               breaker_fresh_sample) = OPEN
      /\ fst (Breaker.execute 30509 30600 (Return reply_ok)
                (failing_calls econnrefused (four_times ++ [(500, 510)])
                   breaker_fresh_sample))
         = Throw (Breaker.open_error breaker_fresh_sample))
  /\ (exists resp,
        fst (Proxy.processRequest (world_of 6000 (Return reply_ok)) "Y" req_call
               (snd (serve "Y" req_call
                       (world_of 1000 (Throw econnrefused) :: four_failing_worlds)
                       proxy0)))
          = Return resp
        /\ error_code resp = Some (-32003)
        /\ http_calls (snd (Proxy.processRequest
                              (world_of 6000 (Return reply_ok)) "Y" req_call
                              (snd (serve "Y" req_call
                                      (world_of 1000 (Throw econnrefused)
                                         :: four_failing_worlds) proxy0))))
           = http_calls (snd (serve "Y" req_call
                                (world_of 1000 (Throw econnrefused)
                                   :: four_failing_worlds) proxy0))
        /\ length (http_calls (snd (serve "Y" req_call
                                      (world_of 1000 (Throw econnrefused)
                                         :: four_failing_worlds) proxy0)))
           = (length (http_calls proxy0)
              + length (world_of 1000 (Throw econnrefused)
                          :: four_failing_worlds))%nat).
Proof.
  split; [|split; [|split]].
  - apply (proj1 open_breaker_fails_fast breaker_open_sample 2000 2020
             (Return reply_ok)).
    + reflexivity.
    + reflexivity.
  - apply (proj1 (proj2 open_breaker_fails_fast)
             (world_of 2000 (Return reply_ok)) "X" req_call proxy_open_sample
             breaker_open_sample).
    + reflexivity.
    + reflexivity.
    + reflexivity.
    + reflexivity.
    + reflexivity.
  - apply (proj1 (proj2 (proj2 open_breaker_fails_fast)) econnrefused
             four_times 500 510 breaker_fresh_sample 30509 30600
             (Return reply_ok)).
    + reflexivity.
    + reflexivity.
    + reflexivity.
    + reflexivity.
  - apply (proj2 (proj2 (proj2 open_breaker_fails_fast))
             (world_of 1000 (Throw econnrefused)) four_failing_worlds
             (world_of 6000 (Return reply_ok)) "Y" req_call proxy0).
    + reflexivity.
    + reflexivity.
    + reflexivity.
    + reflexivity.
    + reflexivity.
    + reflexivity.
    + reflexivity.
Defined.
